(** * A CTF backend: challenge catalogue, flag judge and leaderboard

    Shallow embedding of [main.py] and [schemas.py].  The handlers are
    written in a state-and-exception monad over a [World] that holds the
    module-level [db] handle, the collections of the document store and the
    script of store failures.  The [database] module and the MongoDB client
    behind it are not part of the sources; their operations are modelled in
    section "The document store". *)

From Stdlib Require Import ZArith NArith Ascii String List Sorting.Sorted Permutation.
From Stdlib Require Import DecimalString HexadecimalString.
From stdpp Require Import base tactics option list sorting strings gmap fin_maps.

Local Open Scope string_scope.
Local Open Scope list_scope.
Local Open Scope Z_scope.

(** ** Python strings *)

(** A Python [str] is a sequence of Unicode code points. *)
Abbreviation char := N (only parsing).
Abbreviation str := (list N) (only parsing).

(** A string literal of the source (the ASCII ones). *)
Fixpoint lit (s : string) : str :=
  match s with
  | EmptyString => []
  | String a s' => N_of_ascii a :: lit s'
  end.

(** The code points [str.strip()] removes: CPython's
    [_PyUnicode_IsWhitespace]. *)
Definition is_space (c : char) : bool :=
  ((9 <=? c) && (c <=? 13) || (28 <=? c) && (c <=? 32)
   || (c =? 133) || (c =? 160) || (c =? 5760)
   || (8192 <=? c) && (c <=? 8202)
   || (c =? 8232) || (c =? 8233) || (c =? 8239) || (c =? 8287)
   || (c =? 12288))%N.

Fixpoint lstrip (s : str) : str :=
  match s with
  | c :: s' => if is_space c then lstrip s' else s
  | [] => []
  end.

Definition rstrip (s : str) : str := rev (lstrip (rev s)).

(** [s.strip()] *)
Definition strip (s : str) : str := rstrip (lstrip s).

(** [a or b] on strings: the empty string is false. *)
Definition str_or (a b : str) : str :=
  match a with [] => b | _ :: _ => a end.

(** [s[:n]] *)
Definition str_prefix (n : nat) (s : str) : str := take n s.

(** ** Documents *)

(** The values a document field holds here: [None], booleans, integers,
    strings and the store's object identifiers. *)
Inductive Value :=
| VNone
| VBool (b : bool)
| VInt (n : Z)
| VStr (s : str)
| VOid (n : N).

#[global] Instance Value_eq_dec : EqDecision Value.
Proof. solve_decision. Defined.

(** A document is a Python [dict] with string keys. *)
Abbreviation Doc := (gmap string Value) (only parsing).

(** [d.get(k)]: [None] when the key is missing. *)
Definition dict_get (d : Doc) (k : string) : Value := default VNone (d !! k).

(** [d.get(k, dflt)] *)
Definition dict_get_default (d : Doc) (k : string) (dflt : Value) : Value :=
  default dflt (d !! k).

(** [d.pop(k, None)] as a statement: the key is removed when present. *)
Definition dict_pop (k : string) (d : Doc) : Doc := delete k d.

(** [a == b] where [a] is a string. *)
Definition str_eq_value (a : str) (v : Value) : bool :=
  match v with
  | VStr b => bool_decide (a = b)
  | _ => false
  end.

(** The 24 lower-case hexadecimal digits of an object identifier. *)
Definition oid_hex (n : N) : str :=
  let digits := lit (HexadecimalString.NilZero.string_of_uint
                       (N.to_hex_uint (n mod 2 ^ 96)%N)) in
  replicate (24 - length digits)%nat 48%N ++ digits.

(** [str(v)] *)
Definition py_str (v : Value) : str :=
  match v with
  | VNone => lit "None"
  | VBool true => lit "True"
  | VBool false => lit "False"
  | VInt n => lit (DecimalString.NilZero.string_of_int (Z.to_int n))
  | VStr s => s
  | VOid n => oid_hex n
  end.

(** ** Exceptions and the handler monad *)

Inductive Exn :=
| HTTPException (status_code : Z) (detail : str)
| StoreError (msg : str)
| TypeError
| ValueError
| KeyError (key : string)
| ValidationError
| NotImplementedError.

(** [str(e)] *)
Definition exn_str (e : Exn) : str :=
  match e with
  | HTTPException _ d => d
  | StoreError m => m
  | KeyError k => lit k
  | _ => []
  end.

Inductive Res (A : Type) :=
| Ok (a : A)
| Raise (e : Exn).
Arguments Ok {A} a.
Arguments Raise {A} e.

(** What [bool(db)] does on a handle.  The class of the handle comes from
    the [database] module: a plain object is true, a handle whose class
    refuses truth testing (PyMongo's [Database] does) raises. *)
Inductive Truth := Truthy | Falsy | TruthRaises.

Record Handle := { handle_bool : Truth }.

Record World := {
  db : option Handle;                 (* the module-level [db] *)
  colls : gmap string (list Doc);     (* the store's collections *)
  next_oid : N;                       (* the next identifier the store assigns *)
  faults : list (option str);         (* per store call: [Some msg] = it raises *)
  environ : gmap string str;          (* [os.environ] *)
}.

Definition set_colls (c : gmap string (list Doc)) (w : World) : World :=
  {| db := db w; colls := c; next_oid := next_oid w;
     faults := faults w; environ := environ w |}.

Definition set_next_oid (n : N) (w : World) : World :=
  {| db := db w; colls := colls w; next_oid := n;
     faults := faults w; environ := environ w |}.

Definition set_faults (f : list (option str)) (w : World) : World :=
  {| db := db w; colls := colls w; next_oid := next_oid w;
     faults := f; environ := environ w |}.

(** The documents of a collection, in insertion order. *)
Definition coll (w : World) (name : string) : list Doc :=
  default [] (colls w !! name).

Definition M (A : Type) : Type := World -> Res A * World.

Definition ret {A} (a : A) : M A := fun w => (Ok a, w).

Definition raise {A} (e : Exn) : M A := fun w => (Raise e, w).

Definition bind {A B} (m : M A) (k : A -> M B) : M B :=
  fun w => match m w with
           | (Ok a, w') => k a w'
           | (Raise e, w') => (Raise e, w')
           end.

(** [try: m except Exception: h] *)
Definition try_except {A} (m : M A) (h : Exn -> M A) : M A :=
  fun w => match m w with
           | (Ok a, w') => (Ok a, w')
           | (Raise e, w') => h e w'
           end.

Definition lift {A} (r : Res A) : M A := fun w => (r, w).

Definition get_world : M World := fun w => (Ok w, w).

Declare Scope py_scope.
Delimit Scope py_scope with py.
Notation "x <- m ;; k" := (bind m (fun x => k))
  (at level 100, m at next level, right associativity) : py_scope.
Notation "m ;;; k" := (bind m (fun _ => k))
  (at level 100, right associativity) : py_scope.
Local Open Scope py_scope.

(** [for x in l: body x] *)
Fixpoint for_each {A} (body : A -> M unit) (l : list A) : M unit :=
  match l with
  | [] => ret tt
  | x :: l' => body x ;;; for_each body l'
  end.

(** [[f(x) for x in l]] where [f] may raise. *)
Fixpoint list_comp {A B} (f : A -> Res B) (l : list A) : Res (list B) :=
  match l with
  | [] => Ok []
  | x :: l' =>
      match f x with
      | Raise e => Raise e
      | Ok y => match list_comp f l' with
                | Raise e => Raise e
                | Ok ys => Ok (y :: ys)
                end
      end
  end.

(** [d[k]] *)
Definition subscript {V} (d : gmap string V) (k : string) : Res V :=
  match d !! k with
  | Some v => Ok v
  | None => Raise (KeyError k)
  end.

(** [int(v)].  A string is read as Python reads a decimal literal: the
    whitespace around it is dropped, a sign may come first, and single
    underscores may sit between digits.  Only the ASCII digits are known
    here: the decimal digits of other scripts, which Python also reads, are
    answered with [ValueError]. *)
Fixpoint digits_value (acc : Z) (after_digit : bool) (s : str) : option Z :=
  match s with
  | [] => if after_digit then Some acc else None
  | c :: s' =>
      if ((48 <=? c) && (c <=? 57))%N
      then digits_value (10 * acc + Z.of_N (c - 48)) true s'
      else if (c =? 95)%N && after_digit
           then digits_value acc false s'
           else None
  end.

Definition int_of_str (s : str) : Res Z :=
  let r := match strip s with
           | 45%N :: t => Z.opp <$> digits_value 0 false t
           | 43%N :: t => digits_value 0 false t
           | t => digits_value 0 false t
           end in
  match r with Some n => Ok n | None => Raise ValueError end.

Definition py_int (v : Value) : Res Z :=
  match v with
  | VInt n => Ok n
  | VBool b => Ok (if b then 1 else 0)
  | VStr s => int_of_str s
  | VNone | VOid _ => Raise TypeError
  end.

(** ** The document store *)

(** The stages of an aggregation pipeline that [leaderboard] uses. *)
Inductive Stage :=
| Match (field : string) (v : Value)
    (* {"$match": {field: v}} *)
| GroupSum (key_field out sum_field : string)
    (* {"$group": {"_id": "$key_field", out: {"$sum": "$sum_field"}}} *)
| SortDesc (field : string)
    (* {"$sort": {field: -1}} *)
| Limit (n : nat).
    (* {"$limit": n} *)

(** [$sum] adds the numeric values and skips the others. *)
Definition numeric (v : Value) : Z :=
  match v with VInt n => n | _ => 0 end.

(** Adds [n] to the accumulator of group [k], opening the group at the end
    when it is new. *)
Fixpoint bump (k : Value) (n : Z) (acc : list (Value * Z)) : list (Value * Z) :=
  match acc with
  | [] => [(k, n)]
  | (k', m) :: acc' =>
      if decide (k = k') then (k', m + n) :: acc'
      else (k', m) :: bump k n acc'
  end.

(** A missing key field groups under [null]. *)
Definition group_sum (key_field sum_field : string) (docs : list Doc)
  : list (Value * Z) :=
  fold_left
    (fun acc d => bump (dict_get d key_field) (numeric (dict_get d sum_field)) acc)
    docs [].

Definition group_doc (out : string) (g : Value * Z) : Doc :=
  <["_id" := g.1]> (<[out := VInt g.2]> ∅).

Fixpoint insert_desc {A} (key : A -> Z) (x : A) (l : list A) : list A :=
  match l with
  | [] => [x]
  | y :: l' =>
      if key x <? key y then y :: insert_desc key x l' else x :: l
  end.

(** Sort by decreasing key; equal keys keep their order. *)
Definition sort_desc {A} (key : A -> Z) (l : list A) : list A :=
  foldr (insert_desc key) [] l.

Definition run_stage (st : Stage) (docs : list Doc) : list Doc :=
  match st with
  | Match field v => filter (fun d => d !! field = Some v) docs
  | GroupSum key_field out sum_field =>
      group_doc out <$> group_sum key_field sum_field docs
  | SortDesc field => sort_desc (fun d => numeric (dict_get d field)) docs
  | Limit n => take n docs
  end.

Definition run_pipeline (pipeline : list Stage) (docs : list Doc) : list Doc :=
  fold_left (fun ds st => run_stage st ds) pipeline docs.

(** Every call to the store consumes one entry of the failure script; an
    exhausted script means the store answers. *)
Definition next_fault (w : World) : option str :=
  match faults w with
  | Some msg :: _ => Some msg
  | _ => None
  end.

Definition after_call (w : World) : World := set_faults (tail (faults w)) w.

Definition store_call : M unit :=
  fun w =>
    match next_fault w with
    | None => (Ok tt, after_call w)
    | Some msg => (Raise (StoreError msg), after_call w)
    end.

(** The first document of a collection whose [field] equals [v]. *)
Definition first_match (name field : string) (v : Value) (w : World)
  : option Doc :=
  head (filter (fun d => d !! field = Some v) (coll w name)).

(** The document as the store keeps it: the store assigns [_id] when the
    document has none. *)
Definition with_id (w : World) (d : Doc) : Doc :=
  match d !! "_id" with
  | Some _ => d
  | None => <["_id" := VOid (next_oid w)]> d
  end.

(** The world after [d] is appended to collection [name]. *)
Definition inserted (name : string) (d : Doc) (w : World) : World :=
  set_next_oid (next_oid w + 1)%N
    (set_colls (<[name := coll w name ++ [with_id w d]]> (colls w)) w).

(** Modelled from the spec: the collaborator contract of the document store
    ("collection-scoped insert, find-all, find-one-by-field, and an
    aggregation pipeline operation (match/group/sort/limit) with
    MongoDB-style semantics"); the client library is not in the sources. *)
Module Collection.

(** [db[name].count_documents({})] *)
Definition count_documents (name : string) : M Z :=
  store_call ;;;
  w <- get_world ;;
  ret (Z.of_nat (length (coll w name))).

(** [db[name].find_one({field: v})]: the first match in insertion order. *)
Definition find_one (name field : string) (v : Value) : M (option Doc) :=
  store_call ;;;
  w <- get_world ;;
  ret (first_match name field v w).

(** [list(db[name].find({}))] *)
Definition find_all (name : string) : M (list Doc) :=
  store_call ;;;
  w <- get_world ;;
  ret (coll w name).

(** [list(db[name].aggregate(pipeline))] *)
Definition aggregate (name : string) (pipeline : list Stage) : M (list Doc) :=
  store_call ;;;
  w <- get_world ;;
  ret (run_pipeline pipeline (coll w name)).

(** [db[name].insert_one(d)]: the store assigns [_id] when the document
    has none, and appends the document. *)
Definition insert_one (name : string) (d : Doc) : M Value :=
  store_call ;;;
  fun w => (Ok (dict_get (with_id w d) "_id"), inserted name d w).

(** [db.list_collection_names()] *)
Definition list_collection_names : M (list string) :=
  store_call ;;;
  w <- get_world ;;
  ret (elements (dom (colls w))).

End Collection.

(** Modelled from the spec: the helpers of the [database] module, which is
    not in the sources.  [create_document] is the store's "insert" of a
    validated model and [get_documents] its "find-all"; both are store
    errors when there is no handle. *)
Definition create_document (name : string) (data : Doc) : M str :=
  w <- get_world ;;
  match db w with
  | None => raise (StoreError (lit "Database not available"))
  | Some _ => oid <- Collection.insert_one name data ;; ret (py_str oid)
  end.

Definition get_documents (name : string) : M (list Doc) :=
  w <- get_world ;;
  match db w with
  | None => raise (StoreError (lit "Database not available"))
  | Some _ => Collection.find_all name
  end.

(** ** schemas.py *)

Definition DIFFICULTY : list str := [lit "Easy"; lit "Medium"; lit "Hard"].

Module Ctfchallenge.
Record t := {
  challenge_id : str;
  title : str;
  category : str;
  difficulty : str;
  description : str;
  hint : option str;
  flag : str;
  points : Z;
}.

(** The constructor validates [difficulty] against the literal type and
    [points] against [ge=0]. *)
Definition make (challenge_id title category difficulty description : str)
    (hint : option str) (flag : str) (points : Z) : Res t :=
  if bool_decide (difficulty ∈ DIFFICULTY) && (0 <=? points)
  then Ok {| challenge_id := challenge_id; title := title;
             category := category; difficulty := difficulty;
             description := description; hint := hint;
             flag := flag; points := points |}
  else Raise ValidationError.

(** [model_dump()] *)
Definition to_doc (c : t) : Doc :=
  <["challenge_id" := VStr (challenge_id c)]>
  (<["title" := VStr (title c)]>
  (<["category" := VStr (category c)]>
  (<["difficulty" := VStr (difficulty c)]>
  (<["description" := VStr (description c)]>
  (<["hint" := from_option VStr VNone (hint c)]>
  (<["flag" := VStr (flag c)]>
  (<["points" := VInt (points c)]> ∅))))))).
End Ctfchallenge.

Module Ctfsubmission.
Record t := {
  challenge_id : str;
  username : str;
  submitted_flag : str;
  correct : bool;
  points_awarded : Z;
}.

(** [model_dump()] *)
Definition to_doc (s : t) : Doc :=
  <["challenge_id" := VStr (challenge_id s)]>
  (<["username" := VStr (username s)]>
  (<["submitted_flag" := VStr (submitted_flag s)]>
  (<["correct" := VBool (correct s)]>
  (<["points_awarded" := VInt (points_awarded s)]> ∅)))).
End Ctfsubmission.

(** ** main.py *)

(** [read_root] *)
Definition read_root : M (gmap string str) :=
  ret (<["message" := lit "CTF backend running"]> ∅).

Module TestResponse.
Record t := {
  backend : str;
  database : str;
  database_url : str;
  database_name : str;
  connection_status : str;
  collections : list string;
}.

Definition set_database (v : str) (r : t) : t :=
  {| backend := backend r; database := v; database_url := database_url r;
     database_name := database_name r;
     connection_status := connection_status r;
     collections := collections r |}.

Definition set_connection_status (v : str) (r : t) : t :=
  {| backend := backend r; database := database r;
     database_url := database_url r; database_name := database_name r;
     connection_status := v; collections := collections r |}.

Definition set_collections (v : list string) (r : t) : t :=
  {| backend := backend r; database := database r;
     database_url := database_url r; database_name := database_name r;
     connection_status := connection_status r; collections := v |}.
End TestResponse.

(** The marks of the diagnostic strings: U+2705, U+274C, U+26A0 U+FE0F. *)
Definition check_mark : str := [9989%N].
Definition cross_mark : str := [10060%N].
Definition warning_mark : str := [9888%N; 65039%N].

(** ["✅ Set" if os.getenv(name) else "❌ Not Set"] *)
Definition env_status (w : World) (name : string) : str :=
  match environ w !! name with
  | Some (_ :: _) => check_mark ++ lit " Set"
  | _ => cross_mark ++ lit " Not Set"
  end.

(** [test_database] *)
Definition test_database : M TestResponse.t :=
  w <- get_world ;;
  let response :=
    {| TestResponse.backend := check_mark ++ lit " Running";
       TestResponse.database := cross_mark ++ lit " Not Available";
       TestResponse.database_url := env_status w "DATABASE_URL";
       TestResponse.database_name := env_status w "DATABASE_NAME";
       TestResponse.connection_status := lit "Not Connected";
       TestResponse.collections := [] |} in
  try_except
    (match db w with
     | Some _ =>
         let response :=
           TestResponse.set_connection_status (lit "Connected")
             (TestResponse.set_database (check_mark ++ lit " Available") response) in
         try_except
           (collections <- Collection.list_collection_names ;;
            ret (TestResponse.set_database
                   (check_mark ++ lit " Connected & Working")
                   (TestResponse.set_collections (take 10 collections) response)))
           (fun e =>
              ret (TestResponse.set_database
                     (warning_mark ++ lit " Connected but Error: "
                        ++ str_prefix 80 (exn_str e))
                     response))
     | None =>
         ret (TestResponse.set_database
                (warning_mark ++ lit " Available but not initialized") response)
     end)
    (fun e =>
       ret (TestResponse.set_database
              (cross_mark ++ lit " Error: " ++ str_prefix 80 (exn_str e))
              response)).

Definition DIFF_POINTS : gmap string Z :=
  <["Easy" := 100]> (<["Medium" := 200]> (<["Hard" := 300]> ∅)).

(** The list literal [samples] of [seed_challenges]. *)
Definition samples : M (list Ctfchallenge.t) :=
  easy <- lift (subscript DIFF_POINTS "Easy") ;;
  s1 <- lift (Ctfchallenge.make
                (lit "web-101") (lit "Login Bypass Basics") (lit "Web")
                (lit "Easy")
                (lit "Bypass a weak login form using basic SQL injection techniques.")
                (Some (lit "Try using logical operators to make a condition always true."))
                (lit "FLAG{BAS1C_SQLI}") easy) ;;
  medium <- lift (subscript DIFF_POINTS "Medium") ;;
  s2 <- lift (Ctfchallenge.make
                (lit "crypto-201") (lit "XOR Secrets") (lit "Crypto")
                (lit "Medium")
                (lit "Recover a plaintext by analyzing repeated-key XOR.")
                (Some (lit "Frequency analysis on XORed text can reveal the key."))
                (lit "FLAG{X0R_K3Y}") medium) ;;
  hard <- lift (subscript DIFF_POINTS "Hard") ;;
  s3 <- lift (Ctfchallenge.make
                (lit "pwn-301") (lit "Buffer Overflow Warmup") (lit "Pwn")
                (lit "Hard")
                (lit "Exploit a classic stack buffer overflow to overwrite return address.")
                (Some (lit "Understand calling conventions and NOP sleds."))
                (lit "FLAG{0V3RFL0W}") hard) ;;
  ret [s1; s2; s3].

(** [seed_challenges] *)
Definition seed_challenges : M unit :=
  try_except
    (w <- get_world ;;
     match db w with
     | None => ret tt
     | Some _ =>
         count <- Collection.count_documents "ctfchallenge" ;;
         if count =? 0 then
           samples <- samples ;;
           for_each
             (fun s =>
                try_except
                  (create_document "ctfchallenge" (Ctfchallenge.to_doc s) ;;;
                   ret tt)
                  (fun _ => ret tt))
             samples
         else ret tt
     end)
    (fun _ => ret tt).

Module SubmitPayload.
Record t := {
  challenge_id : str;
  username : str;
  flag : str;
}.
End SubmitPayload.

(** The body of the loop of [list_challenges]. *)
Definition clean (d : Doc) : Doc :=
  let d := dict_pop "flag" d in
  match d !! "_id" with
  | Some oid => <["id" := VStr (py_str oid)]> (dict_pop "_id" d)
  | None => d
  end.

(** [list_challenges] *)
Definition list_challenges : M (list Doc) :=
  docs <- try_except
            (docs <- get_documents "ctfchallenge" ;; ret (Some docs))
            (fun _ => ret None) ;;
  match docs with
  | None => ret []
  | Some docs => ret (clean <$> docs)
  end.

Module LeaderboardRow.
Record t := { user : Value; points : Value }.
End LeaderboardRow.

Definition leaderboard_pipeline : list Stage :=
  [ Match "correct" (VBool true);
    GroupSum "username" "points" "points_awarded";
    SortDesc "points";
    Limit 20 ].

(** [{"user": r["_id"], "points": r["points"]}] *)
Definition leaderboard_row (r : Doc) : Res LeaderboardRow.t :=
  match subscript r "_id" with
  | Raise e => Raise e
  | Ok u =>
      match subscript r "points" with
      | Raise e => Raise e
      | Ok p => Ok {| LeaderboardRow.user := u; LeaderboardRow.points := p |}
      end
  end.

(** [leaderboard] *)
Definition leaderboard : M (list LeaderboardRow.t) :=
  try_except
    (let pipeline := leaderboard_pipeline in
     w <- get_world ;;
     rows <- match db w with
             | None => ret []
             | Some h =>
                 match handle_bool h with
                 | Truthy => Collection.aggregate "ctfsubmission" pipeline
                 | Falsy => ret []
                 | TruthRaises => raise NotImplementedError
                 end
             end ;;
     lift (list_comp leaderboard_row rows))
    (fun _ => ret []).

Module SubmitResponse.
Record t := { correct : bool; points : Z }.
End SubmitResponse.

(** [not ch] on the result of [find_one]: [None] and the empty dict are
    false. *)
Definition no_document (ch : option Doc) : bool :=
  match ch with
  | None => true
  | Some d => bool_decide (d = ∅)
  end.

(** [submit_flag] *)
Definition submit_flag (payload : SubmitPayload.t) : M SubmitResponse.t :=
  w <- get_world ;;
  match db w with
  | None => raise (HTTPException 503 (lit "Database unavailable"))
  | Some _ =>
      ch <- Collection.find_one "ctfchallenge" "challenge_id"
              (VStr (SubmitPayload.challenge_id payload)) ;;
      if no_document ch then
        raise (HTTPException 404 (lit "Challenge not found"))
      else
        let ch := default ∅ ch in
        let correct :=
          str_eq_value (strip (SubmitPayload.flag payload)) (dict_get ch "flag") in
        points <- (if correct
                   then lift (py_int (dict_get_default ch "points" (VInt 0)))
                   else ret 0) ;;
        try_except
          (let sub :=
             {| Ctfsubmission.challenge_id := SubmitPayload.challenge_id payload;
                Ctfsubmission.username :=
                  str_or (strip (SubmitPayload.username payload)) (lit "anonymous");
                Ctfsubmission.submitted_flag := SubmitPayload.flag payload;
                Ctfsubmission.correct := correct;
                Ctfsubmission.points_awarded := points |} in
           create_document "ctfsubmission" (Ctfsubmission.to_doc sub) ;;;
           ret tt)
          (fun _ => ret tt) ;;;
        ret {| SubmitResponse.correct := correct;
               SubmitResponse.points := points |}
  end.

(** * Vocabulary of the statements *)

(** Blank or whitespace-only. *)
Definition blank (s : str) : bool := forallb is_space s.

(** The stored challenge a submit call is judged against. *)
Definition stored_challenge (w : World) (challenge_id : str) : option Doc :=
  first_match "ctfchallenge" "challenge_id" (VStr challenge_id) w.

(** The record [submit_flag] builds for a judged submission. *)
Definition submission (payload : SubmitPayload.t) (correct : bool) (points : Z)
  : Ctfsubmission.t :=
  {| Ctfsubmission.challenge_id := SubmitPayload.challenge_id payload;
     Ctfsubmission.username :=
       if blank (SubmitPayload.username payload) then lit "anonymous"
       else strip (SubmitPayload.username payload);
     Ctfsubmission.submitted_flag := SubmitPayload.flag payload;
     Ctfsubmission.correct := correct;
     Ctfsubmission.points_awarded := points |}.

(** The world after a guarded write into collection [name] was attempted:
    the document is appended unless the store call fails. *)
Definition after_write (name : string) (d : Doc) (w : World) : World :=
  match next_fault w with
  | None => inserted name d (after_call w)
  | Some _ => after_call w
  end.

(** The three sample challenges of [seed_challenges]. *)
Definition sample_challenges : list Ctfchallenge.t :=
  match (samples {| db := None; colls := ∅; next_oid := 0; faults := [];
                    environ := ∅ |}).1 with
  | Ok l => l
  | Raise _ => []
  end.

(** Document [d] is sample [s] as the store keeps it. *)
Definition stored_as (s : Ctfchallenge.t) (d : Doc) : Prop :=
  exists oid : N, d = <["_id" := VOid oid]> (Ctfchallenge.to_doc s).

(** The store answers the next [n] calls. *)
Definition answers (n : nat) (w : World) : Prop :=
  Forall (fun f => f = None) (take n (faults w)).

(** ** The leaderboard in the words of its specification *)

(** A submission judged correct. *)
Definition is_correct (d : Doc) : Prop := d !! "correct" = Some (VBool true).

#[global] Instance is_correct_dec (d : Doc) : Decision (is_correct d).
Proof. unfold is_correct. apply _. Defined.

(** The sum of [sum_field] over the documents whose [key_field] is [k]. *)
Definition sum_where (key_field sum_field : string) (k : Value)
    (docs : list Doc) : Z :=
  foldr Z.add 0
    ((fun d => numeric (dict_get d sum_field))
       <$> filter (fun d => dict_get d key_field = k) docs).

(** The points a user has earned: the sum of [points_awarded] over their
    correct submissions. *)
Definition user_total (subs : list Doc) (u : Value) : Z :=
  sum_where "username" "points_awarded" u (filter is_correct subs).

(** The users with at least one correct submission. *)
Definition users (subs : list Doc) : list Value :=
  remove_dups ((fun d => dict_get d "username") <$> filter is_correct subs).

(** One group per such user, with the user's total. *)
Definition groups (subs : list Doc) : list (Value * Z) :=
  (fun u => (u, user_total subs u)) <$> users subs.

(** Non-increasing by points. *)
Definition by_points_desc (a b : Value * Z) : Prop := b.2 <= a.2.

Definition to_row (g : Value * Z) : LeaderboardRow.t :=
  {| LeaderboardRow.user := g.1; LeaderboardRow.points := VInt g.2 |}.

Definition row_points (r : LeaderboardRow.t) : Z :=
  numeric (LeaderboardRow.points r).

Definition rows_desc (a b : LeaderboardRow.t) : Prop :=
  row_points b <= row_points a.

(** The accumulator of a group in the output of the [$group] stage. *)
Fixpoint assoc (k : Value) (acc : list (Value * Z)) : option Z :=
  match acc with
  | [] => None
  | (k', m) :: acc' => if decide (k = k') then Some m else assoc k acc'
  end.

(** The total the aggregation holds for a user: the [$match] and [$group]
    stages of the pipeline, read at the user's group (0 without one). *)
Definition leaderboard_total (subs : list Doc) (u : Value) : Z :=
  default 0
    (assoc u (group_sum "username" "points_awarded"
                (filter (fun d => d !! "correct" = Some (VBool true)) subs))).

(** The groups of the store in the order the aggregation ranks them. *)
Definition ranking (subs : list Doc) : list (Value * Z) :=
  sort_desc snd
    (group_sum "username" "points_awarded"
       (filter (fun d => d !! "correct" = Some (VBool true)) subs)).

(** ** What a response may depend on *)

(** Two documents that differ at most in their [flag] field. *)
Definition same_up_to_flag (d1 d2 : Doc) : Prop :=
  delete "flag" d1 = delete "flag" d2.

(** Two worlds that differ at most in the [flag] fields of the stored
    challenges. *)
Definition same_up_to_flags (w1 w2 : World) : Prop :=
  db w1 = db w2
  /\ faults w1 = faults w2
  /\ environ w1 = environ w2
  /\ next_oid w1 = next_oid w2
  /\ dom (colls w1) = dom (colls w2)
  /\ Forall2 same_up_to_flag (coll w1 "ctfchallenge") (coll w2 "ctfchallenge")
  /\ forall name : string,
       name ≠ "ctfchallenge" -> colls w1 !! name = colls w2 !! name.

(** ** Sample worlds *)

(** A reachable, empty store. *)
Definition fresh_world : World :=
  {| db := Some {| handle_bool := Truthy |}; colls := ∅; next_oid := 0;
     faults := []; environ := ∅ |}.

(** The store after the start-up seed. *)
Definition seeded_world : World := (seed_challenges fresh_world).2.

(** No handle: the connection was never configured. *)
Definition offline_world : World :=
  {| db := None; colls := ∅; next_oid := 0; faults := []; environ := ∅ |}.

(** The seeded store with a script of store failures. *)
Definition failing (fs : list (option str)) (w : World) : World :=
  set_faults fs w.

Definition timeout_msg : str := lit "ServerSelectionTimeoutError".

Definition payload (challenge_id username flag : string) : SubmitPayload.t :=
  {| SubmitPayload.challenge_id := lit challenge_id;
     SubmitPayload.username := lit username;
     SubmitPayload.flag := lit flag |}.

(** The stored document of challenge [web-101]. *)
Definition web_101 : Doc :=
  default ∅ (stored_challenge seeded_world (lit "web-101")).

(** The seeded store after a correct submission by alice and one by bob. *)
Definition scored_world : World :=
  (submit_flag (payload "crypto-201" "bob" "FLAG{X0R_K3Y}")
     (submit_flag (payload "web-101" " alice " "FLAG{BAS1C_SQLI}")
        seeded_world).2).2.

(** A correct submission worth 100 points by alice, as stored. *)
Definition alice_100 : Doc :=
  <["_id" := VOid 7]>
    (Ctfsubmission.to_doc
       (submission (payload "web-101" "alice" "FLAG{BAS1C_SQLI}") true 100)).

(** The seeded store with every stored flag overwritten. *)
Definition reflagged_world : World :=
  set_colls
    (<["ctfchallenge" :=
         (fun d : Doc => <["flag" := VStr (lit "FLAG{CHANGED}")]> d)
           <$> coll seeded_world "ctfchallenge"]> (colls seeded_world))
    seeded_world.

(** ** Vocabulary of the further properties *)

(** The names of the store's collections, as [list_collection_names]
    returns them. *)
Definition store_names (w : World) : list string := elements (dom (colls w)).

(** Every stored document carries the identifier the store gave it. *)
Definition has_ids (w : World) : Prop :=
  forall (name : string) (d : Doc), d ∈ coll w name -> is_Some (d !! "_id").

(** A payload with another flag, and with another username. *)
Definition with_flag (flag : str) (p : SubmitPayload.t) : SubmitPayload.t :=
  {| SubmitPayload.challenge_id := SubmitPayload.challenge_id p;
     SubmitPayload.username := SubmitPayload.username p;
     SubmitPayload.flag := flag |}.

Definition with_username (username : str) (p : SubmitPayload.t)
  : SubmitPayload.t :=
  {| SubmitPayload.challenge_id := SubmitPayload.challenge_id p;
     SubmitPayload.username := username;
     SubmitPayload.flag := SubmitPayload.flag p |}.

(** A store whose listing fails, with a long error message. *)
Definition long_msg : str := replicate 100 120%N.

Definition env_world : World :=
  {| db := None; colls := ∅; next_oid := 0; faults := [];
     environ := <["DATABASE_URL" := lit "mongodb://db"]>
                  (<["DATABASE_NAME" := []]> ∅) |}.

(** A store with challenges that were not written through the schema. *)
Definition odd_challenge (oid : N) (challenge_id : string)
    (fields : list (string * Value)) : Doc :=
  <["_id" := VOid oid]>
    (<["challenge_id" := VStr (lit challenge_id)]> (list_to_map fields)).

Definition odd_world : World :=
  {| db := Some {| handle_bool := Truthy |};
     colls :=
       <["ctfchallenge" :=
           [ odd_challenge 0 "padded"
               [("flag", VStr (lit "FLAG{X} ")); ("points", VInt 50)];
             odd_challenge 1 "noflag" [("points", VInt 50)];
             odd_challenge 2 "nopoints" [("flag", VStr (lit "FLAG{Y}"))];
             odd_challenge 3 "nullpoints"
               [("flag", VStr (lit "FLAG{Z}")); ("points", VNone)] ]]> ∅;
     next_oid := 4; faults := []; environ := ∅ |}.

Definition odd_stored (challenge_id : string) : Doc :=
  default ∅ (stored_challenge odd_world (lit challenge_id)).

(** A challenge beside the samples. *)
Definition misc_challenge : Ctfchallenge.t :=
  {| Ctfchallenge.challenge_id := lit "misc-1";
     Ctfchallenge.title := lit "Warmup";
     Ctfchallenge.category := lit "Misc";
     Ctfchallenge.difficulty := lit "Medium";
     Ctfchallenge.description := lit "Read the rules.";
     Ctfchallenge.hint := None;
     Ctfchallenge.flag := lit "FLAG{RULES}";
     Ctfchallenge.points := 200 |}.

(** ** A handle that refuses the truth test *)

(** The world with another handle. *)
Definition with_handle (h : Handle) (w : World) : World :=
  {| db := Some h; colls := colls w; next_oid := next_oid w;
     faults := faults w; environ := environ w |}.

(** The handle of a PyMongo [Database]: [bool(db)] raises. *)
Definition pymongo_handle : Handle := {| handle_bool := TruthRaises |}.

(** The store after a correct submission by alice and one by bob, reached
    through such a handle. *)
Definition pymongo_world : World := with_handle pymongo_handle scored_world.

Definition alice_payload : SubmitPayload.t :=
  payload "web-101" "alice" "FLAG{BAS1C_SQLI}".

(** * Properties *)

(** ** Strings *)

Lemma lstrip_nil (s : str) : lstrip s = [] <-> blank s = true.
Proof.
  induction s as [|c s IH]; simpl; [done|].
  destruct (is_space c); simpl; [exact IH|].
  split; discriminate.
Qed.

Lemma lstrip_blank (s : str) : blank (lstrip s) = blank s.
Proof.
  induction s as [|c s IH]; simpl; [done|].
  destruct (is_space c) eqn:E; simpl; [exact IH|].
  by rewrite E.
Qed.

Lemma blank_rev (s : str) : blank (rev s) = blank s.
Proof.
  unfold blank. induction s as [|c s IH]; simpl; [done|].
  rewrite forallb_app, IH. simpl. rewrite andb_true_r. apply andb_comm.
Qed.

Lemma strip_nil (s : str) : strip s = [] <-> blank s = true.
Proof.
  unfold strip, rstrip.
  rewrite <- (lstrip_blank s), <- (blank_rev (lstrip s)), <- lstrip_nil.
  split; intros H.
  - apply (f_equal (@rev N)) in H. by rewrite rev_involutive in H.
  - by rewrite H.
Qed.

Lemma str_or_strip (s dflt : str) :
  str_or (strip s) dflt = if blank s then dflt else strip s.
Proof.
  destruct (blank s) eqn:E.
  - apply strip_nil in E. by rewrite E.
  - destruct (strip s) eqn:F; [|done].
    apply strip_nil in F. congruence.
Qed.

(** ** Running the store *)

Lemma coll_after_call (w : World) (name : string) :
  coll (after_call w) name = coll w name.
Proof. done. Qed.

Lemma db_after_call (w : World) : db (after_call w) = db w.
Proof. done. Qed.

Lemma find_one_run (name field : string) (v : Value) (w : World) :
  Collection.find_one name field v w =
    match next_fault w with
    | None => (Ok (first_match name field v w), after_call w)
    | Some msg => (Raise (StoreError msg), after_call w)
    end.
Proof.
  unfold Collection.find_one, bind, store_call.
  by destruct (next_fault w).
Qed.

Lemma create_document_run (name : string) (d : Doc) (w : World) :
  create_document name d w =
    match db w with
    | None => (Raise (StoreError (lit "Database not available")), w)
    | Some _ =>
        match next_fault w with
        | None => (Ok (py_str (dict_get (with_id w d) "_id")),
                   inserted name d (after_call w))
        | Some msg => (Raise (StoreError msg), after_call w)
        end
    end.
Proof.
  unfold create_document, bind, get_world, Collection.insert_one, bind, store_call.
  destruct (db w); [|done]. by destruct (next_fault w).
Qed.

Lemma coll_inserted (name name' : string) (d : Doc) (w : World) :
  coll (inserted name d w) name' =
    if decide (name = name') then coll w name ++ [with_id w d] else coll w name'.
Proof.
  unfold coll at 1. unfold inserted. simpl.
  rewrite lookup_insert. by repeat case_decide; subst.
Qed.

Lemma db_inserted (name : string) (d : Doc) (w : World) :
  db (inserted name d w) = db w.
Proof. done. Qed.

Lemma first_match_Some (name field : string) (v : Value) (w : World) (d : Doc) :
  first_match name field v w = Some d ->
  d ∈ coll w name /\ d !! field = Some v.
Proof.
  unfold first_match. intros H.
  apply head_Some_elem_of in H. by apply list_elem_of_filter in H as [? ?].
Qed.

(** ** The submit handler, case by case *)

Lemma submit_flag_run (payload : SubmitPayload.t) (w : World) :
  submit_flag payload w =
    match db w with
    | None => (Raise (HTTPException 503 (lit "Database unavailable")), w)
    | Some _ =>
        match next_fault w with
        | Some msg => (Raise (StoreError msg), after_call w)
        | None =>
            match stored_challenge w (SubmitPayload.challenge_id payload) with
            | None =>
                (Raise (HTTPException 404 (lit "Challenge not found")),
                 after_call w)
            | Some ch =>
                let correct :=
                  str_eq_value (strip (SubmitPayload.flag payload))
                    (dict_get ch "flag") in
                match (if correct
                       then py_int (dict_get_default ch "points" (VInt 0))
                       else Ok 0) with
                | Raise e => (Raise e, after_call w)
                | Ok points =>
                    (Ok {| SubmitResponse.correct := correct;
                           SubmitResponse.points := points |},
                     after_write "ctfsubmission"
                       (Ctfsubmission.to_doc (submission payload correct points))
                       (after_call w))
                end
            end
        end
    end.
Proof.
  unfold submit_flag, bind at 1, get_world.
  destruct (db w) as [h|] eqn:Hdb; [|done].
  unfold bind at 1. rewrite find_one_run.
  destruct (next_fault w) as [msg|]; [done|].
  unfold stored_challenge.
  destruct (first_match _ _ _ w) as [ch|] eqn:Hch; simpl; [|done].
  apply first_match_Some in Hch as [_ Hch].
  rewrite bool_decide_eq_false_2
    by (intros ->; by rewrite lookup_empty in Hch).
  unfold bind at 1.
  assert (Hw : forall points : Z,
    let correct := str_eq_value (strip (SubmitPayload.flag payload))
                     (dict_get ch "flag") in
    (try_except
       (create_document "ctfsubmission"
          (Ctfsubmission.to_doc
             {| Ctfsubmission.challenge_id := SubmitPayload.challenge_id payload;
                Ctfsubmission.username :=
                  str_or (strip (SubmitPayload.username payload)) (lit "anonymous");
                Ctfsubmission.submitted_flag := SubmitPayload.flag payload;
                Ctfsubmission.correct := correct;
                Ctfsubmission.points_awarded := points |}) ;;; ret tt)
       (fun _ => ret tt) ;;;
     ret {| SubmitResponse.correct := correct; SubmitResponse.points := points |})
      (after_call w) =
    (Ok {| SubmitResponse.correct := correct; SubmitResponse.points := points |},
     after_write "ctfsubmission"
       (Ctfsubmission.to_doc (submission payload correct points))
       (after_call w))).
  { intros points correct.
    unfold bind, try_except. rewrite create_document_run, db_after_call, Hdb.
    unfold after_write, submission. rewrite str_or_strip.
    by destruct (next_fault (after_call w)). }
  destruct (str_eq_value _ _).
  - unfold lift. destruct (py_int _) as [points|e]; [|done]. apply Hw.
  - unfold ret at 1. apply Hw.
Qed.

(** The two statuses [submit_flag] raises itself. *)
Lemma submit_flag_statuses (payload : SubmitPayload.t) (w : World) :
  (db w = None ->
   (submit_flag payload w).1
   = Raise (HTTPException 503 (lit "Database unavailable")))
  /\ (forall h, db w = Some h -> next_fault w = None ->
      stored_challenge w (SubmitPayload.challenge_id payload) = None ->
      (submit_flag payload w).1
      = Raise (HTTPException 404 (lit "Challenge not found"))).
Proof.
  rewrite submit_flag_run. split.
  - by intros ->.
  - by intros h -> -> ->.
Qed.

Lemma coll_after_write (name : string) (d : Doc) (w : World) :
  coll (after_write name d w) name =
    coll w name ++
      match next_fault w with
      | None => [with_id (after_call w) d]
      | Some _ => []
      end.
Proof.
  unfold after_write. destruct (next_fault w).
  - by rewrite app_nil_r.
  - by rewrite coll_inserted, decide_True.
Qed.

Lemma with_id_lookup (w : World) (d : Doc) (k : string) :
  k ≠ "_id" -> with_id w d !! k = d !! k.
Proof.
  intros Hk. unfold with_id. destruct (d !! "_id"); [done|].
  by rewrite lookup_insert_ne.
Qed.

Lemma with_id_has_id (w : World) (d : Doc) : is_Some (with_id w d !! "_id").
Proof.
  unfold with_id. destruct (d !! "_id") eqn:E; [by rewrite E|].
  by rewrite lookup_insert_eq.
Qed.

(** ** Claims about the submission judge *)

(** C1: when the lookup finds a stored challenge (with a string [flag] and
    an integer [points]), the response is [{correct, points}] where
    [correct] tells whether the stripped submitted flag equals the stored
    flag and [points] is the challenge's points when correct and 0
    otherwise; the document written to [ctfsubmission], which exists as
    soon as the write goes through, carries the same two values. *)
Theorem submit_flag_judges
    (payload : SubmitPayload.t) (w : World) (h : Handle) (ch : Doc)
    (flag : str) (points : Z) :
  db w = Some h ->
  next_fault w = None ->
  stored_challenge w (SubmitPayload.challenge_id payload) = Some ch ->
  ch !! "flag" = Some (VStr flag) ->
  ch !! "points" = Some (VInt points) ->
  let correct := bool_decide (strip (SubmitPayload.flag payload) = flag) in
  let awarded := if correct then points else 0 in
  (submit_flag payload w).1 =
    Ok {| SubmitResponse.correct := correct; SubmitResponse.points := awarded |}
  /\ exists persisted : list Doc,
       coll (submit_flag payload w).2 "ctfsubmission" =
         coll w "ctfsubmission" ++ persisted
       /\ (next_fault (after_call w) = None -> length persisted = 1%nat)
       /\ forall d, d ∈ persisted ->
            d !! "correct" = Some (VBool correct)
            /\ d !! "points_awarded" = Some (VInt awarded).
Proof.
  intros Hdb Hf Hch Hflag Hpoints correct awarded.
  rewrite submit_flag_run, Hdb, Hf, Hch.
  unfold dict_get, dict_get_default. rewrite Hflag, Hpoints. simpl.
  fold correct.
  assert (Hp : (if correct then Ok points else Ok 0) = Ok awarded)
    by (unfold awarded; by destruct correct).
  rewrite Hp. simpl. split; [done|].
  rewrite coll_after_write, coll_after_call.
  eexists. split; [done|]. split.
  - by intros ->.
  - intros d Hd. destruct (next_fault (after_call w)).
    + by apply elem_of_nil in Hd.
    + apply list_elem_of_singleton in Hd as ->.
      by rewrite !with_id_lookup.
Qed.

Lemma submit_flag_judges_witness :
  (submit_flag (payload "web-101" "alice" "  FLAG{BAS1C_SQLI} ") seeded_world).1
  = Ok {| SubmitResponse.correct := true; SubmitResponse.points := 100 |}.
Proof.
  refine (proj1 (submit_flag_judges
                   (payload "web-101" "alice" "  FLAG{BAS1C_SQLI} ")
                   seeded_world {| handle_bool := Truthy |} web_101
                   (lit "FLAG{BAS1C_SQLI}") 100 _ _ _ _ _));
    vm_compute; reflexivity.
Defined.



(** C9: once the handle is there, the lookup has found a challenge and the
    response is computed, a failing write of the submission is swallowed:
    the call returns that response, raises nothing and stores nothing. *)
Theorem submit_flag_write_failure_swallowed
    (payload : SubmitPayload.t) (w : World) (h : Handle) (ch : Doc)
    (points : Z) (msg : str) :
  db w = Some h ->
  next_fault w = None ->
  stored_challenge w (SubmitPayload.challenge_id payload) = Some ch ->
  let correct :=
    str_eq_value (strip (SubmitPayload.flag payload)) (dict_get ch "flag") in
  (if correct then py_int (dict_get_default ch "points" (VInt 0)) else Ok 0)
    = Ok points ->
  next_fault (after_call w) = Some msg ->
  (submit_flag payload w).1 =
    Ok {| SubmitResponse.correct := correct; SubmitResponse.points := points |}
  /\ colls (submit_flag payload w).2 = colls w.
Proof.
  intros Hdb Hf Hch correct Hp Hwrite.
  rewrite submit_flag_run, Hdb, Hf, Hch. simpl. fold correct. rewrite Hp.
  unfold after_write. by rewrite Hwrite.
Qed.

Lemma submit_flag_write_failure_swallowed_witness :
  (submit_flag (payload "web-101" "alice" "FLAG{BAS1C_SQLI}")
     (failing [None; Some timeout_msg] seeded_world)).1
  = Ok {| SubmitResponse.correct := true; SubmitResponse.points := 100 |}
  /\ colls (submit_flag (payload "web-101" "alice" "FLAG{BAS1C_SQLI}")
              (failing [None; Some timeout_msg] seeded_world)).2
     = colls (failing [None; Some timeout_msg] seeded_world).
Proof.
  apply (submit_flag_write_failure_swallowed
           (payload "web-101" "alice" "FLAG{BAS1C_SQLI}")
           (failing [None; Some timeout_msg] seeded_world)
           {| handle_bool := Truthy |} web_101 100 timeout_msg);
    vm_compute; reflexivity.
Defined.

(** C10: a submit call that raises -- the 503 of a missing handle, the 404
    of an unknown challenge, or anything else -- leaves every collection as
    it was: no submission document is created. *)
Theorem submit_flag_error_leaves_store
    (payload : SubmitPayload.t) (w w' : World) (e : Exn) :
  submit_flag payload w = (Raise e, w') ->
  colls w' = colls w /\ next_oid w' = next_oid w.
Proof.
  rewrite submit_flag_run.
  destruct (db w); [|by intros [= <- <-]].
  destruct (next_fault w); [by intros [= <- <-]|].
  destruct (stored_challenge _ _); [|by intros [= <- <-]]. simpl.
  destruct (if str_eq_value _ _ then _ else _); [done|].
  by intros [= <- <-].
Qed.

Lemma submit_flag_error_leaves_store_witness :
  colls (submit_flag (payload "no-such-id" "alice" "FLAG{BAS1C_SQLI}")
           seeded_world).2 = colls seeded_world
  /\ next_oid (submit_flag (payload "no-such-id" "alice" "FLAG{BAS1C_SQLI}")
                 seeded_world).2 = next_oid seeded_world.
Proof.
  apply (submit_flag_error_leaves_store
           (payload "no-such-id" "alice" "FLAG{BAS1C_SQLI}") seeded_world _
           (HTTPException 404 (lit "Challenge not found"))).
  vm_compute; reflexivity.
Defined.

(** C2: with a handle in place and the store not answering, the lookup of
    [submit_flag] raises and nothing catches it: the call ends with the
    store's own exception, which is neither the 503 nor the 404
    [HTTPException], and not a response. *)
Theorem submit_flag_lookup_error_escapes
    (p : SubmitPayload.t) (h : Handle) (c : gmap string (list Doc)) (n : N)
    (msg : str) (fs : list (option str)) (env : gmap string str) :
  let w := {| db := Some h; colls := c; next_oid := n;
              faults := Some msg :: fs; environ := env |} in
  (submit_flag p w).1 = Raise (StoreError msg)
  /\ (submit_flag p w).1 ≠ Raise (HTTPException 503 (lit "Database unavailable"))
  /\ (submit_flag p w).1 ≠ Raise (HTTPException 404 (lit "Challenge not found"))
  /\ (forall r, (submit_flag p w).1 ≠ Ok r).
Proof.
  intros w. rewrite submit_flag_run. simpl. by repeat split.
Qed.

(** ** The aggregation stages *)

Section Grouping.
Variables key_field sum_field : string.

Let key_of (d : Doc) : Value := dict_get d key_field.
Let amount (d : Doc) : Z := numeric (dict_get d sum_field).
Let step (acc : list (Value * Z)) (d : Doc) := bump (key_of d) (amount d) acc.

Lemma assoc_bump (k k' : Value) (n : Z) (acc : list (Value * Z)) :
  assoc k' (bump k n acc) =
    if decide (k' = k) then Some (default 0 (assoc k acc) + n)
    else assoc k' acc.
Proof.
  induction acc as [|[k0 m] acc IH]; simpl.
  - by repeat case_decide.
  - destruct (decide (k = k0)) as [->|Hne]; simpl.
    + repeat case_decide; congruence.
    + rewrite IH. repeat case_decide; congruence.
Qed.

Lemma keys_bump (k : Value) (n : Z) (acc : list (Value * Z)) :
  (bump k n acc).*1 = if decide (k ∈ acc.*1) then acc.*1 else acc.*1 ++ [k].
Proof.
  induction acc as [|[k0 m] acc IH].
  - destruct (decide (k ∈ _)) as [Hin|_]; [|done].
    by apply elem_of_nil in Hin.
  - cbn [bump]. destruct (decide (k = k0)) as [->|Hne].
    + clear IH. destruct (decide (k0 ∈ _)) as [_|Hin]; [reflexivity|].
      exfalso. apply Hin. rewrite fmap_cons. apply elem_of_cons. by left.
    + rewrite !fmap_cons, IH. cbn [fst].
      destruct (decide (k ∈ acc.*1)) as [Hin|Hin];
        destruct (decide (k ∈ k0 :: acc.*1)) as [Hin'|Hin']; try reflexivity.
      * exfalso. apply Hin'. apply elem_of_cons. by right.
      * apply elem_of_cons in Hin' as [?|?]; contradiction.
Qed.

Lemma NoDup_bump (k : Value) (n : Z) (acc : list (Value * Z)) :
  NoDup acc.*1 -> NoDup (bump k n acc).*1.
Proof.
  intros Hnd. rewrite keys_bump. case_decide; [done|].
  apply NoDup_app. repeat split; [done| |apply NoDup_singleton].
  intros x Hx ->%list_elem_of_singleton. contradiction.
Qed.

Lemma sum_where_cons (k : Value) (d : Doc) (docs : list Doc) :
  sum_where key_field sum_field k (d :: docs) =
    (if decide (key_of d = k) then amount d else 0)
    + sum_where key_field sum_field k docs.
Proof.
  unfold sum_where. rewrite filter_cons. fold (key_of d).
  by case_decide.
Qed.

Lemma sum_where_app (k : Value) (l1 l2 : list Doc) :
  sum_where key_field sum_field k (l1 ++ l2) =
    sum_where key_field sum_field k l1 + sum_where key_field sum_field k l2.
Proof.
  induction l1 as [|d l1 IH]; simpl; [done|].
  rewrite !sum_where_cons, IH. lia.
Qed.

Lemma sum_where_absent (k : Value) (docs : list Doc) :
  k ∉ key_of <$> docs -> sum_where key_field sum_field k docs = 0.
Proof.
  induction docs as [|d docs IH]; intros Hin; [done|].
  rewrite fmap_cons, not_elem_of_cons in Hin. destruct Hin as [Hne Hin].
  rewrite sum_where_cons, IH by done.
  by rewrite decide_False by congruence.
Qed.

Lemma assoc_fold_step (docs : list Doc) (acc : list (Value * Z)) (k : Value) :
  assoc k (fold_left step docs acc) =
    if decide (k ∈ key_of <$> docs)
    then Some (default 0 (assoc k acc) + sum_where key_field sum_field k docs)
    else assoc k acc.
Proof.
  revert acc. induction docs as [|d docs IH]; intros acc.
  - destruct (decide (k ∈ _)) as [Hin|_]; [|done].
    by apply elem_of_nil in Hin.
  - cbn [fold_left]. rewrite IH, fmap_cons. clear IH. unfold step.
    rewrite assoc_bump, sum_where_cons.
    destruct (decide (k ∈ key_of <$> docs)) as [Hin|Hin].
    + destruct (decide (k ∈ key_of d :: (key_of <$> docs))) as [_|Hin'];
        [|exfalso; apply Hin', elem_of_cons; by right].
      destruct (decide (k = key_of d)) as [->|Hne].
      * rewrite decide_True by done. simpl; f_equal; lia.
      * rewrite decide_False by done; f_equal; lia.
    + rewrite (sum_where_absent k docs Hin).
      destruct (decide (k = key_of d)) as [->|Hne].
      * destruct (decide (key_of d ∈ key_of d :: (key_of <$> docs)))
          as [_|Hin']; [|exfalso; apply Hin', elem_of_cons; by left].
        rewrite decide_True by done; f_equal; lia.
      * destruct (decide (k ∈ key_of d :: (key_of <$> docs))) as [Hin'|_];
          [|done].
        apply elem_of_cons in Hin' as [?|?]; contradiction.
Qed.

Lemma NoDup_fold_step (docs : list Doc) (acc : list (Value * Z)) :
  NoDup acc.*1 -> NoDup (fold_left step docs acc).*1.
Proof.
  revert acc. induction docs as [|d docs IH]; intros acc Hnd; simpl; [done|].
  apply IH, NoDup_bump, Hnd.
Qed.

Lemma assoc_group_sum (docs : list Doc) (k : Value) :
  assoc k (group_sum key_field sum_field docs) =
    if decide (k ∈ key_of <$> docs)
    then Some (sum_where key_field sum_field k docs)
    else None.
Proof.
  unfold group_sum. fold key_of amount. change (fold_left _ docs [])
    with (fold_left step docs []).
  rewrite assoc_fold_step. simpl. by case_decide.
Qed.

Lemma NoDup_group_sum (docs : list Doc) :
  NoDup (group_sum key_field sum_field docs).*1.
Proof. apply (NoDup_fold_step docs []), NoDup_nil_2. Qed.
End Grouping.

Lemma elem_of_assoc (acc : list (Value * Z)) (k : Value) (v : Z) :
  NoDup acc.*1 -> (k, v) ∈ acc <-> assoc k acc = Some v.
Proof.
  induction acc as [|[k0 m] acc IH]; intros Hnd.
  - split; [by intros ?%elem_of_nil|done].
  - rewrite fmap_cons in Hnd. apply NoDup_cons in Hnd as [Hk0 Hnd].
    cbn [assoc]. rewrite elem_of_cons, (IH Hnd).
    destruct (decide (k = k0)) as [->|Hne].
    + split.
      * intros [[= ->]|Ha]; [done|]. exfalso. apply Hk0.
        apply (IH Hnd) in Ha. apply list_elem_of_fmap. by exists (k0, v).
      * intros [= ->]. by left.
    + split; [intros [[= ? ?]|?]|intros ?]; try done. by right.
Qed.

(** The [$match] and [$group] stages produce one group per user with a
    correct submission, holding the sum of the user's points. *)
Lemma group_sum_groups (subs : list Doc) :
  group_sum "username" "points_awarded"
    (filter (fun d => d !! "correct" = Some (VBool true)) subs)
  ≡ₚ groups subs.
Proof.
  apply NoDup_Permutation.
  - apply (NoDup_fmap_1 fst), NoDup_group_sum.
  - unfold groups. apply NoDup_fmap_2_strong; [|apply NoDup_remove_dups].
    by intros ? ? _ _ [= ?].
  - intros [k v].
    rewrite (elem_of_assoc _ _ _ (NoDup_group_sum _ _ _)), assoc_group_sum.
    unfold groups, users, user_total, is_correct.
    case_decide as Hin; split.
    + intros [= <-]. apply list_elem_of_fmap. exists k.
      by rewrite elem_of_remove_dups.
    + by intros (u & [= -> ->] & _)%list_elem_of_fmap.
    + done.
    + intros (u & [= -> ->] & Hu)%list_elem_of_fmap.
      rewrite elem_of_remove_dups in Hu. contradiction.
Qed.

Lemma leaderboard_total_user_total (subs : list Doc) (u : Value) :
  leaderboard_total subs u = user_total subs u.
Proof.
  unfold leaderboard_total, user_total, is_correct.
  rewrite assoc_group_sum. case_decide as Hin; [done|].
  simpl. symmetry. by apply sum_where_absent.
Qed.

(** *** Sorting *)

Section Sorting.
Context {A : Type} (key : A -> Z).

Let desc (a b : A) : Prop := key b <= key a.

Lemma insert_desc_perm (x : A) (l : list A) : insert_desc key x l ≡ₚ x :: l.
Proof.
  induction l as [|y l IH]; simpl; [done|].
  destruct (key x <? key y); [|done].
  rewrite IH. apply Permutation_swap.
Qed.

Lemma sort_desc_perm (l : list A) : sort_desc key l ≡ₚ l.
Proof.
  induction l as [|x l IH]; simpl; [done|].
  by rewrite insert_desc_perm, IH.
Qed.

Lemma insert_desc_sorted (x : A) (l : list A) :
  StronglySorted desc l -> StronglySorted desc (insert_desc key x l).
Proof.
  induction 1 as [|y l Hl IH Hy]; simpl.
  - repeat constructor.
  - destruct (key x <? key y) eqn:E.
    + apply Z.ltb_lt in E. constructor; [done|].
      apply Forall_forall. intros z Hz.
      rewrite insert_desc_perm in Hz.
      apply elem_of_cons in Hz as [->|Hz]; [unfold desc; lia|].
      by eapply Forall_forall in Hy.
    + apply Z.ltb_ge in E. constructor; [by constructor|].
      constructor; [done|].
      eapply Forall_impl; [exact Hy|]. unfold desc. intros; simpl in *. lia.
Qed.

Lemma sort_desc_sorted (l : list A) : StronglySorted desc (sort_desc key l).
Proof.
  induction l as [|x l IH]; simpl; [constructor|].
  by apply insert_desc_sorted.
Qed.

Lemma StronglySorted_take_desc (n : nat) (l : list A) :
  StronglySorted desc l -> StronglySorted desc (take n l).
Proof.
  intros H. revert n. induction H as [|x l Hl IH Hx]; intros [|n]; simpl;
    try constructor; [apply IH|].
  by apply Forall_take.
Qed.
End Sorting.

Lemma insert_desc_fmap {A B} (f : A -> B) (key : B -> Z) (x : A) (l : list A) :
  insert_desc key (f x) (f <$> l) = f <$> insert_desc (key ∘ f) x l.
Proof.
  induction l as [|y l IH]; simpl; [done|].
  destruct (key (f x) <? key (f y)); [|done].
  rewrite fmap_cons. f_equal. exact IH.
Qed.

Lemma sort_desc_fmap {A B} (f : A -> B) (key : B -> Z) (l : list A) :
  sort_desc key (f <$> l) = f <$> sort_desc (key ∘ f) l.
Proof.
  induction l as [|x l IH]; [done|].
  rewrite fmap_cons. unfold sort_desc in *. cbn [foldr].
  by rewrite IH, insert_desc_fmap.
Qed.

Lemma sort_desc_ext {A} (key key' : A -> Z) (l : list A) :
  (forall x, key x = key' x) -> sort_desc key l = sort_desc key' l.
Proof.
  intros H. induction l as [|x l IH]; [done|].
  unfold sort_desc in *. cbn [foldr]. rewrite IH.
  generalize (foldr (insert_desc key') [] l).
  intros l'. induction l' as [|y l' IH']; simpl; [done|].
  by rewrite !H, IH'.
Qed.

(** ** The leaderboard handler, case by case *)

Lemma group_doc_points (g : Value * Z) :
  numeric (dict_get (group_doc "points" g) "points") = g.2.
Proof.
  unfold group_doc, dict_get.
  by rewrite lookup_insert_ne, lookup_insert_eq.
Qed.

Lemma leaderboard_pipeline_run (subs : list Doc) :
  run_pipeline leaderboard_pipeline subs
  = group_doc "points" <$> take 20 (ranking subs).
Proof.
  unfold run_pipeline, leaderboard_pipeline, ranking. cbn [fold_left run_stage].
  rewrite sort_desc_fmap, fmap_take.
  by rewrite (sort_desc_ext _ snd) by apply group_doc_points.
Qed.

Lemma leaderboard_rows (l : list (Value * Z)) :
  list_comp leaderboard_row (group_doc "points" <$> l) = Ok (to_row <$> l).
Proof.
  induction l as [|g l IH]; [done|].
  rewrite !fmap_cons. cbn [list_comp]. rewrite IH.
  unfold leaderboard_row, subscript, group_doc.
  rewrite lookup_insert_eq, lookup_insert_ne, lookup_insert_eq by done.
  done.
Qed.

Lemma leaderboard_run (w : World) :
  leaderboard w =
    match db w with
    | None => (Ok [], w)
    | Some h =>
        match handle_bool h with
        | Truthy =>
            match next_fault w with
            | None =>
                (Ok (to_row <$> take 20 (ranking (coll w "ctfsubmission"))),
                 after_call w)
            | Some _ => (Ok [], after_call w)
            end
        | Falsy | TruthRaises => (Ok [], w)
        end
    end.
Proof.
  unfold leaderboard, try_except, bind at 1, get_world.
  destruct (db w) as [h|]; [|done].
  destruct (handle_bool h); try done.
  unfold bind, Collection.aggregate, bind, store_call, get_world.
  destruct (next_fault w); [done|].
  unfold ret, lift. rewrite coll_after_call, leaderboard_pipeline_run.
  by rewrite leaderboard_rows.
Qed.

Lemma ranking_sorted (subs : list Doc) :
  StronglySorted by_points_desc (ranking subs).
Proof. apply (sort_desc_sorted snd). Qed.

Lemma ranking_groups (subs : list Doc) : ranking subs ≡ₚ groups subs.
Proof. unfold ranking. by rewrite sort_desc_perm, group_sum_groups. Qed.

Lemma top20_rows_sorted (l : list (Value * Z)) :
  StronglySorted by_points_desc l ->
  StronglySorted rows_desc (to_row <$> take 20 l).
Proof.
  intros H. apply (StronglySorted_fmap _ by_points_desc); [done|].
  by apply (StronglySorted_take_desc snd).
Qed.

(** ** Claims about the leaderboard *)

(** With a handle that tests true and a store that answers, the
    leaderboard is the first 20 of the groups (one per user with a correct
    submission, holding the sum of [points_awarded] over the user's correct
    submissions) ranked by non-increasing sum; and whatever the world, the
    leaderboard returns a list of at most 20 rows whose points are
    non-increasing. *)
Theorem leaderboard_top20 (w : World) :
  (forall h,
     db w = Some h -> handle_bool h = Truthy -> next_fault w = None ->
     exists ranked : list (Value * Z),
       ranked ≡ₚ groups (coll w "ctfsubmission")
       /\ StronglySorted by_points_desc ranked
       /\ (leaderboard w).1 = Ok (to_row <$> take 20 ranked))
  /\ exists rows : list LeaderboardRow.t,
       (leaderboard w).1 = Ok rows
       /\ (length rows <= 20)%nat
       /\ StronglySorted rows_desc rows.
Proof.
  rewrite leaderboard_run. split.
  - intros h -> -> ->. exists (ranking (coll w "ctfsubmission")).
    split; [apply ranking_groups|]. split; [apply ranking_sorted|done].
  - assert (Hnil : exists rows : list LeaderboardRow.t,
              Ok (A := list LeaderboardRow.t) [] = Ok rows
              /\ (length rows <= 20)%nat /\ StronglySorted rows_desc rows).
    { exists []. repeat split; [simpl; lia|constructor]. }
    destruct (db w) as [h|]; [|exact Hnil].
    destruct (handle_bool h); try exact Hnil.
    destruct (next_fault w); [exact Hnil|].
    eexists. split; [done|]. split.
    + rewrite length_fmap, length_take. lia.
    + apply top20_rows_sorted, ranking_sorted.
Qed.

Lemma leaderboard_top20_witness :
  exists ranked : list (Value * Z),
    ranked ≡ₚ groups (coll scored_world "ctfsubmission")
    /\ StronglySorted by_points_desc ranked
    /\ (leaderboard scored_world).1 = Ok (to_row <$> take 20 ranked).
Proof.
  apply (proj1 (leaderboard_top20 scored_world) {| handle_bool := Truthy |});
    vm_compute; reflexivity.
Defined.

(** Every row of the leaderboard carries the total of its user. *)
Lemma leaderboard_row_total (w : World) (rows : list LeaderboardRow.t)
    (r : LeaderboardRow.t) :
  (leaderboard w).1 = Ok rows -> r ∈ rows ->
  row_points r =
    leaderboard_total (coll w "ctfsubmission") (LeaderboardRow.user r).
Proof.
  rewrite leaderboard_run.
  assert (Hnil : Ok (A := list LeaderboardRow.t) [] = Ok rows -> r ∈ rows ->
            row_points r =
              leaderboard_total (coll w "ctfsubmission") (LeaderboardRow.user r)).
  { intros [= <-] ?%elem_of_nil. done. }
  destruct (db w) as [h|]; [|exact Hnil].
  destruct (handle_bool h); try exact Hnil.
  destruct (next_fault w); [exact Hnil|].
  intros [= <-] (g & -> & Hg)%list_elem_of_fmap.
  apply (fun H => elem_of_sublist _ _ _ H (sublist_take _ _)) in Hg.
  rewrite ranking_groups in Hg. unfold groups in Hg.
  apply list_elem_of_fmap in Hg as (u & -> & _).
  by rewrite leaderboard_total_user_total.
Qed.

(** Appending a correct submission adds its points to the total of its
    user and leaves the other totals alone. *)
Lemma leaderboard_total_snoc (subs : list Doc) (s : Doc) (u : Value) :
  s !! "correct" = Some (VBool true) ->
  leaderboard_total (subs ++ [s]) u =
    leaderboard_total subs u
    + (if decide (dict_get s "username" = u)
       then numeric (dict_get s "points_awarded") else 0).
Proof.
  intros Hc. rewrite !leaderboard_total_user_total. unfold user_total.
  rewrite filter_app, sum_where_app. f_equal.
  rewrite (filter_cons_True _ s []) by done.
  rewrite filter_nil, sum_where_cons. unfold sum_where. simpl. lia.
Qed.

(** Appending one correct submission of user ["alice"] with
    [points_awarded] 100 raises the total the aggregation holds for alice
    by exactly 100 and leaves the total of every other user as it was. *)
Theorem leaderboard_total_monotonic (subs : list Doc) (s : Doc) :
  s !! "correct" = Some (VBool true) ->
  s !! "username" = Some (VStr (lit "alice")) ->
  s !! "points_awarded" = Some (VInt 100) ->
  leaderboard_total (subs ++ [s]) (VStr (lit "alice"))
    = leaderboard_total subs (VStr (lit "alice")) + 100
  /\ forall u : Value,
       u ≠ VStr (lit "alice") ->
       leaderboard_total (subs ++ [s]) u = leaderboard_total subs u.
Proof.
  generalize (VStr (lit "alice")). intros alice Hc Hu Hp.
  split; [|intros u Hne];
    rewrite leaderboard_total_snoc by done;
    unfold dict_get; rewrite Hu, Hp; cbn [default numeric].
  - by rewrite decide_True.
  - rewrite decide_False by done. lia.
Qed.

Lemma leaderboard_total_monotonic_witness :
  leaderboard_total (coll scored_world "ctfsubmission" ++ [alice_100])
    (VStr (lit "alice")) = 200
  /\ leaderboard_total (coll scored_world "ctfsubmission" ++ [alice_100])
       (VStr (lit "bob")) = 200.
Proof.
  destruct (leaderboard_total_monotonic
              (coll scored_world "ctfsubmission") alice_100)
    as [Ha Hb]; [vm_compute; reflexivity ..|].
  split.
  - rewrite Ha. vm_compute. reflexivity.
  - rewrite (Hb (VStr (lit "bob"))) by discriminate. vm_compute. reflexivity.
Defined.

(** ** The challenge catalogue *)

Lemma get_documents_run (name : string) (w : World) :
  get_documents name w =
    match db w with
    | None => (Raise (StoreError (lit "Database not available")), w)
    | Some _ =>
        match next_fault w with
        | None => (Ok (coll w name), after_call w)
        | Some msg => (Raise (StoreError msg), after_call w)
        end
    end.
Proof.
  unfold get_documents, bind, get_world, Collection.find_all, bind, store_call.
  destruct (db w); [|done]. by destruct (next_fault w).
Qed.

Lemma list_challenges_run (w : World) :
  list_challenges w =
    match db w with
    | None => (Ok [], w)
    | Some _ =>
        match next_fault w with
        | None => (Ok (clean <$> coll w "ctfchallenge"), after_call w)
        | Some _ => (Ok [], after_call w)
        end
    end.
Proof.
  unfold list_challenges, bind at 1, try_except, bind at 1.
  rewrite get_documents_run.
  destruct (db w); [|done]. by destruct (next_fault w).
Qed.

Lemma clean_no_flag (d : Doc) : clean d !! "flag" = None.
Proof.
  unfold clean, dict_pop. destruct (delete "flag" d !! "_id") eqn:E.
  - by rewrite lookup_insert_ne, lookup_delete_ne, lookup_delete_eq.
  - by rewrite lookup_delete_eq.
Qed.

Lemma clean_id (d : Doc) (oid : Value) :
  d !! "_id" = Some oid -> clean d !! "id" = Some (VStr (py_str oid)).
Proof.
  intros H. unfold clean, dict_pop.
  rewrite lookup_delete_ne, H by done. by rewrite lookup_insert_eq.
Qed.

Lemma clean_same_up_to_flag (d1 d2 : Doc) :
  same_up_to_flag d1 d2 -> clean d1 = clean d2.
Proof. unfold same_up_to_flag, clean, dict_pop. by intros ->. Qed.

(** C5: the read handlers never raise.  [list_challenges] returns the empty
    list whenever [get_documents] fails (no handle, or the store call
    raises), and [leaderboard] returns the empty list whenever there is no
    handle, the truth test of the handle raises or the aggregation
    raises. *)
Theorem read_endpoints_fail_open (w : World) :
  (exists docs, (list_challenges w).1 = Ok docs)
  /\ (forall e w', get_documents "ctfchallenge" w = (Raise e, w') ->
        (list_challenges w).1 = Ok [])
  /\ (exists rows, (leaderboard w).1 = Ok rows)
  /\ (db w = None -> (leaderboard w).1 = Ok [])
  /\ (forall h, db w = Some h -> handle_bool h = TruthRaises ->
        (leaderboard w).1 = Ok [])
  /\ (forall e w',
        Collection.aggregate "ctfsubmission" leaderboard_pipeline w
          = (Raise e, w') ->
        (leaderboard w).1 = Ok []).
Proof.
  rewrite list_challenges_run, leaderboard_run, get_documents_run.
  unfold Collection.aggregate, bind, store_call, get_world, ret.
  repeat split.
  - destruct (db w); [|by eexists]. destruct (next_fault w); by eexists.
  - intros e w'. destruct (db w); [|done]. by destruct (next_fault w).
  - destruct (db w) as [h|]; [|by eexists].
    destruct (handle_bool h); try by eexists.
    destruct (next_fault w); by eexists.
  - by intros ->.
  - by intros h -> ->.
  - intros e w'. destruct (db w) as [h|]; [|done].
    destruct (handle_bool h); try done. by destruct (next_fault w).
Qed.

Lemma read_endpoints_fail_open_witness :
  (list_challenges (failing [Some timeout_msg] seeded_world)).1 = Ok []
  /\ (leaderboard (failing [Some timeout_msg] scored_world)).1 = Ok []
  /\ (leaderboard offline_world).1 = Ok [].
Proof.
  split; [|split].
  - apply (proj1 (proj2 (read_endpoints_fail_open
                           (failing [Some timeout_msg] seeded_world)))
             (StoreError timeout_msg) (failing [] seeded_world)).
    vm_compute; reflexivity.
  - apply (proj2 (proj2 (proj2 (proj2 (proj2 (read_endpoints_fail_open
                           (failing [Some timeout_msg] scored_world))))))
             (StoreError timeout_msg) (failing [] scored_world)).
    vm_compute; reflexivity.
  - apply (proj1 (proj2 (proj2 (proj2 (read_endpoints_fail_open offline_world))))).
    reflexivity.
Defined.

(** ** What the responses depend on *)

Lemma same_up_to_flag_lookup (d1 d2 : Doc) (k : string) :
  same_up_to_flag d1 d2 -> k ≠ "flag" -> d1 !! k = d2 !! k.
Proof.
  unfold same_up_to_flag. intros H Hk.
  rewrite <- (lookup_delete_ne d1 "flag" k), <- (lookup_delete_ne d2 "flag" k)
    by done.
  by rewrite H.
Qed.

Lemma same_up_to_flags_other (w1 w2 : World) (name : string) :
  same_up_to_flags w1 w2 -> name ≠ "ctfchallenge" ->
  coll w1 name = coll w2 name.
Proof.
  intros (_ & _ & _ & _ & _ & _ & H) Hne. unfold coll. by rewrite H.
Qed.

Lemma same_up_to_flags_next_fault (w1 w2 : World) :
  same_up_to_flags w1 w2 -> next_fault w1 = next_fault w2.
Proof. intros (_ & H & _). unfold next_fault. by rewrite H. Qed.

Lemma first_match_same_up_to_flag (v : Value) (l1 l2 : list Doc) :
  Forall2 same_up_to_flag l1 l2 ->
  option_Forall2 same_up_to_flag
    (head (filter (fun d => d !! "challenge_id" = Some v) l1))
    (head (filter (fun d => d !! "challenge_id" = Some v) l2)).
Proof.
  induction 1 as [|d1 d2 l1 l2 Hd Hl IH]; [constructor|].
  rewrite !filter_cons.
  rewrite <- (same_up_to_flag_lookup d1 d2 "challenge_id" Hd) by done.
  destruct (decide (d1 !! "challenge_id" = Some v)); [by constructor|done].
Qed.

Lemma list_challenges_same (w1 w2 : World) :
  same_up_to_flags w1 w2 -> (list_challenges w1).1 = (list_challenges w2).1.
Proof.
  intros H. rewrite !list_challenges_run.
  rewrite <- (same_up_to_flags_next_fault _ _ H).
  destruct H as (<- & _ & _ & _ & _ & H & _).
  destruct (db w1); [|done]. destruct (next_fault w1); [done|].
  simpl. f_equal. induction H as [|d1 d2 l1 l2 Hd Hl IH]; [done|].
  rewrite !fmap_cons. f_equal; [by apply clean_same_up_to_flag|exact IH].
Qed.

Lemma leaderboard_same (w1 w2 : World) :
  same_up_to_flags w1 w2 -> (leaderboard w1).1 = (leaderboard w2).1.
Proof.
  intros H. rewrite !leaderboard_run.
  rewrite <- (same_up_to_flags_next_fault _ _ H).
  rewrite <- (same_up_to_flags_other _ _ "ctfsubmission" H) by done.
  destruct H as (<- & _).
  destruct (db w1) as [h|]; [|done].
  destruct (handle_bool h); try done. by destruct (next_fault w1).
Qed.

Lemma list_collection_names_run (w : World) :
  Collection.list_collection_names w =
    match next_fault w with
    | None => (Ok (elements (dom (colls w))), after_call w)
    | Some msg => (Raise (StoreError msg), after_call w)
    end.
Proof.
  unfold Collection.list_collection_names, bind, store_call.
  by destruct (next_fault w).
Qed.

Lemma test_database_same (w1 w2 : World) :
  same_up_to_flags w1 w2 -> (test_database w1).1 = (test_database w2).1.
Proof.
  intros H. pose proof (same_up_to_flags_next_fault _ _ H) as Hnf.
  destruct H as (Hdb & _ & He & _ & Hdom & _).
  unfold test_database, bind, get_world, try_except, env_status, ret.
  cbv beta. rewrite <- Hdb, <- He.
  destruct (db w1); [|done].
  rewrite !list_collection_names_run, <- Hnf, <- Hdom.
  by destruct (next_fault w1).
Qed.

Lemma submit_flag_same_verdict (w1 w2 : World) (p : SubmitPayload.t)
    (r1 r2 : SubmitResponse.t) :
  same_up_to_flags w1 w2 ->
  (submit_flag p w1).1 = Ok r1 -> (submit_flag p w2).1 = Ok r2 ->
  SubmitResponse.correct r1 = SubmitResponse.correct r2 -> r1 = r2.
Proof.
  intros H. rewrite !submit_flag_run.
  rewrite <- (same_up_to_flags_next_fault _ _ H).
  destruct H as (<- & _ & _ & _ & _ & H & _).
  destruct (db w1); [|done]. destruct (next_fault w1); [done|].
  unfold stored_challenge, first_match.
  destruct (first_match_same_up_to_flag
              (VStr (SubmitPayload.challenge_id p)) _ _ H)
    as [ch1 ch2 Hch|]; [|done].
  cbv zeta. unfold dict_get_default.
  rewrite <- (same_up_to_flag_lookup ch1 ch2 "points" Hch) by done.
  destruct (py_int (default (VInt 0) (ch1 !! "points")));
    destruct (str_eq_value _ (dict_get ch1 "flag"));
    destruct (str_eq_value _ (dict_get ch2 "flag")); simpl; try done;
    intros [= <-] [= <-]; done.
Qed.

(** C4: no challenge returned by [list_challenges] has a [flag] field, and
    each one whose stored document has its [_id] has an [id] field holding
    the string form of that identifier.  More generally the responses do not
    depend on the stored flags: [read_root], [test_database],
    [list_challenges] and [leaderboard] answer the same in two worlds that
    differ only in the [flag] fields of the challenges, and the response of
    [submit_flag] depends on them through its verdict alone. *)
Theorem flag_never_served :
  (forall (w : World) (docs : list Doc) (d : Doc),
     (list_challenges w).1 = Ok docs -> d ∈ docs -> d !! "flag" = None)
  /\ (forall (w : World) (docs : list Doc) (d : Doc),
        Forall (fun s : Doc => is_Some (s !! "_id")) (coll w "ctfchallenge") ->
        (list_challenges w).1 = Ok docs -> d ∈ docs ->
        exists (src : Doc) (oid : Value),
          src ∈ coll w "ctfchallenge"
          /\ src !! "_id" = Some oid
          /\ d !! "id" = Some (VStr (py_str oid)))
  /\ (forall w1 w2 : World,
        same_up_to_flags w1 w2 ->
        (read_root w1).1 = (read_root w2).1
        /\ (test_database w1).1 = (test_database w2).1
        /\ (list_challenges w1).1 = (list_challenges w2).1
        /\ (leaderboard w1).1 = (leaderboard w2).1)
  /\ (forall (w1 w2 : World) (p : SubmitPayload.t) (r1 r2 : SubmitResponse.t),
        same_up_to_flags w1 w2 ->
        (submit_flag p w1).1 = Ok r1 -> (submit_flag p w2).1 = Ok r2 ->
        SubmitResponse.correct r1 = SubmitResponse.correct r2 -> r1 = r2).
Proof.
  split; [|split; [|split]].
  - intros w docs d. rewrite list_challenges_run.
    assert (Hnil : Ok (A := list Doc) [] = Ok docs -> d ∈ docs ->
              d !! "flag" = None)
      by (by intros [= <-] ?%elem_of_nil).
    destruct (db w); [|exact Hnil]. destruct (next_fault w); [exact Hnil|].
    intros [= <-] (src & -> & _)%list_elem_of_fmap. apply clean_no_flag.
  - intros w docs d Hids. rewrite list_challenges_run.
    assert (Hnil : Ok (A := list Doc) [] = Ok docs -> d ∈ docs ->
              exists (src : Doc) (oid : Value),
                src ∈ coll w "ctfchallenge" /\ src !! "_id" = Some oid
                /\ d !! "id" = Some (VStr (py_str oid)))
      by (by intros [= <-] ?%elem_of_nil).
    destruct (db w); [|exact Hnil]. destruct (next_fault w); [exact Hnil|].
    intros [= <-] (src & -> & Hsrc)%list_elem_of_fmap.
    destruct (proj1 (Forall_forall _ _) Hids src Hsrc) as [oid Hoid].
    exists src, oid. repeat split; [done..|]. by apply clean_id.
  - intros w1 w2 H. split; [done|].
    split; [by apply test_database_same|].
    split; [by apply list_challenges_same|by apply leaderboard_same].
  - apply submit_flag_same_verdict.
Qed.

Lemma reflagged_same : same_up_to_flags reflagged_world seeded_world.
Proof.
  do 4 (split; [reflexivity|]). split; [|split].
  - unfold reflagged_world. cbn [colls set_colls].
    rewrite dom_insert_L. apply subseteq_union_1_L, singleton_subseteq_l.
    apply (bool_decide_unpack _). vm_compute. exact I.
  - unfold reflagged_world, coll at 1. cbn [colls set_colls].
    rewrite lookup_insert_eq. cbn [default].
    apply Forall2_fmap_l, Forall_Forall2_diag, Forall_forall.
    intros d _. unfold same_up_to_flag. apply delete_insert_eq.
  - intros name Hne. unfold reflagged_world. cbn [colls set_colls].
    by rewrite lookup_insert_ne.
Qed.

Lemma flag_never_served_witness :
  (list_challenges reflagged_world).1 = (list_challenges seeded_world).1
  /\ exists (src : Doc) (oid : Value),
       src ∈ coll seeded_world "ctfchallenge"
       /\ src !! "_id" = Some oid
       /\ clean web_101 !! "id" = Some (VStr (py_str oid)).
Proof.
  destruct flag_never_served as (_ & Hid & Hsame & _). split.
  - apply (Hsame reflagged_world seeded_world), reflagged_same.
  - apply (Hid seeded_world (clean <$> coll seeded_world "ctfchallenge")).
    + apply (bool_decide_unpack _). vm_compute. exact I.
    + vm_compute. reflexivity.
    + apply (bool_decide_unpack _). vm_compute. exact I.
Defined.

(** ** The start-up seed *)

Lemma samples_run (w : World) : samples w = (Ok sample_challenges, w).
Proof. reflexivity. Qed.

Lemma guarded_insert_run (name : string) (d : Doc) (w : World) (h : Handle) :
  db w = Some h ->
  try_except (create_document name d ;;; ret tt) (fun _ => ret tt) w
  = (Ok tt, after_write name d w).
Proof.
  intros Hdb. unfold try_except, bind. rewrite create_document_run, Hdb.
  unfold after_write. by destruct (next_fault w).
Qed.

Lemma db_after_write (name : string) (d : Doc) (w : World) :
  db (after_write name d w) = db w.
Proof. unfold after_write. by destruct (next_fault w). Qed.

Lemma faults_after_write (name : string) (d : Doc) (w : World) :
  faults (after_write name d w) = tail (faults w).
Proof. unfold after_write. by destruct (next_fault w). Qed.

Lemma answers_next (n : nat) (w : World) :
  answers (S n) w -> next_fault w = None.
Proof.
  unfold answers, next_fault. destruct (faults w) as [|[msg|] fs]; try done.
  by intros [[=] _]%Forall_cons.
Qed.

Lemma answers_tail (n : nat) (w w' : World) :
  faults w' = tail (faults w) -> answers (S n) w -> answers n w'.
Proof.
  unfold answers. intros ->. destruct (faults w) as [|f fs]; simpl.
  - intros _. by rewrite take_nil.
  - by intros [_ ?]%Forall_cons.
Qed.

(** The loop of [seed_challenges]: each sample is inserted at most once, in
    order, and all of them are when the store answers every call. *)
Lemma seed_loop_run (l : list Ctfchallenge.t) (w : World) (h : Handle) :
  db w = Some h ->
  exists (kept : list Ctfchallenge.t) (added : list Doc) (w' : World),
    for_each
      (fun s =>
         try_except
           (create_document "ctfchallenge" (Ctfchallenge.to_doc s) ;;; ret tt)
           (fun _ => ret tt)) l w = (Ok tt, w')
    /\ kept `sublist_of` l
    /\ Forall2 stored_as kept added
    /\ coll w' "ctfchallenge" = coll w "ctfchallenge" ++ added
    /\ (answers (length l) w -> kept = l).
Proof.
  revert w. induction l as [|s l IH]; intros w Hdb.
  - exists [], [], w. rewrite app_nil_r. by repeat split.
  - cbn [for_each]. unfold bind at 1.
    rewrite (guarded_insert_run _ _ _ h Hdb).
    set (w1 := after_write "ctfchallenge" (Ctfchallenge.to_doc s) w).
    destruct (IH w1) as (kept & added & w' & Hrun & Hsub & Hst & Hcoll & Hall).
    { unfold w1. by rewrite db_after_write. }
    rewrite Hrun.
    assert (Htail : faults w1 = tail (faults w))
      by apply faults_after_write.
    assert (Hw1 : coll w1 "ctfchallenge" =
                  coll w "ctfchallenge" ++
                    match next_fault w with
                    | None => [with_id (after_call w) (Ctfchallenge.to_doc s)]
                    | Some _ => []
                    end) by apply coll_after_write.
    destruct (next_fault w) as [msg|] eqn:Hnf.
    + exists kept, added, w'. rewrite app_nil_r in Hw1.
      split; [done|]. split; [by apply sublist_cons|].
      split; [done|]. split; [by rewrite Hcoll, Hw1|].
      intros Ha. apply answers_next in Ha. congruence.
    + exists (s :: kept),
        (with_id (after_call w) (Ctfchallenge.to_doc s) :: added), w'.
      split; [done|]. split; [by apply sublist_skip|]. split; [|split].
      * constructor; [|done]. by exists (next_oid (after_call w)).
      * by rewrite Hcoll, Hw1, <- app_assoc.
      * intros Ha. f_equal. apply Hall. by eapply answers_tail.
Qed.

Lemma count_documents_run (name : string) (w : World) :
  Collection.count_documents name w =
    match next_fault w with
    | None => (Ok (Z.of_nat (length (coll w name))), after_call w)
    | Some msg => (Raise (StoreError msg), after_call w)
    end.
Proof.
  unfold Collection.count_documents, bind, store_call.
  by destruct (next_fault w).
Qed.

Lemma seed_challenges_run (w : World) :
  seed_challenges w =
    match db w with
    | None => (Ok tt, w)
    | Some _ =>
        match next_fault w with
        | Some _ => (Ok tt, after_call w)
        | None =>
            match coll w "ctfchallenge" with
            | [] =>
                (Ok tt,
                 (for_each
                    (fun s =>
                       try_except
                         (create_document "ctfchallenge" (Ctfchallenge.to_doc s) ;;;
                          ret tt)
                         (fun _ => ret tt)) sample_challenges (after_call w)).2)
            | _ :: _ => (Ok tt, after_call w)
            end
        end
    end.
Proof.
  unfold seed_challenges, try_except, bind at 1, get_world.
  destruct (db w) as [h|] eqn:Hdb; [|done].
  unfold bind at 1. rewrite count_documents_run.
  destruct (next_fault w); [done|].
  destruct (coll w "ctfchallenge") as [|d l]; [|done].
  change (Z.of_nat (length (@nil Doc)) =? 0) with true.
  unfold bind. cbv beta iota. rewrite samples_run.
  destruct (seed_loop_run sample_challenges (after_call w) h)
    as (? & ? & w' & Hrun & _); [by rewrite db_after_call|].
  unfold try_except, bind in Hrun. by rewrite Hrun.
Qed.

Lemma seed_challenges_keeps (w : World) :
  db w = None \/ is_Some (next_fault w) \/ coll w "ctfchallenge" ≠ [] ->
  colls (seed_challenges w).2 = colls w.
Proof.
  rewrite seed_challenges_run. intros Hcase.
  destruct (db w); [|done]. destruct (next_fault w) eqn:Hnf; [done|].
  destruct (coll w "ctfchallenge"); [|done].
  destruct Hcase as [?|[[? ?]|?]]; done.
Qed.

(** What one run of the seed leaves in the challenge collection. *)
Lemma seed_challenges_adds (w : World) :
  exists (kept : list Ctfchallenge.t) (added : list Doc),
    kept `sublist_of` sample_challenges
    /\ Forall2 stored_as kept added
    /\ coll (seed_challenges w).2 "ctfchallenge"
       = coll w "ctfchallenge" ++ added
    /\ (coll w "ctfchallenge" ≠ [] -> added = [])
    /\ (forall h, db w = Some h -> coll w "ctfchallenge" = [] ->
        answers 4 w -> kept = sample_challenges).
Proof.
  assert (Hnone :
            db w = None \/ is_Some (next_fault w)
            \/ coll w "ctfchallenge" ≠ [] ->
            exists (kept : list Ctfchallenge.t) (added : list Doc),
              kept `sublist_of` sample_challenges
              /\ Forall2 stored_as kept added
              /\ coll (seed_challenges w).2 "ctfchallenge"
                 = coll w "ctfchallenge" ++ added
              /\ (coll w "ctfchallenge" ≠ [] -> added = [])
              /\ (forall h, db w = Some h -> coll w "ctfchallenge" = [] ->
                  answers 4 w -> kept = sample_challenges)).
  { intros Hcase. exists [], []. rewrite app_nil_r.
    split; [apply sublist_nil_l|]. split; [constructor|].
    split; [unfold coll; by rewrite seed_challenges_keeps|].
    split; [done|].
    intros h Hdb Hempty Ha. destruct Hcase as [?|[[msg Hnf]|?]];
      [congruence| |done].
    apply answers_next in Ha. congruence. }
  destruct (db w) as [h|] eqn:Hdb; [|apply Hnone; auto].
  destruct (next_fault w) as [msg|] eqn:Hnf; [apply Hnone; eauto|].
  destruct (decide (coll w "ctfchallenge" = [])) as [Hc|Hc];
    [|apply Hnone; auto].
  clear Hnone. rewrite seed_challenges_run, Hdb, Hnf, Hc.
  destruct (seed_loop_run sample_challenges (after_call w) h)
    as (kept & added & w' & -> & Hsub & Hst & Hcoll & Hall);
    [by rewrite db_after_call|].
  exists kept, added. rewrite coll_after_call, Hc in Hcoll.
  repeat split; [done..|].
  intros h' _ _ Ha. apply Hall. by eapply (answers_tail 3).
Qed.

Lemma seed_challenges_ok (w : World) : (seed_challenges w).1 = Ok tt.
Proof.
  rewrite seed_challenges_run.
  destruct (db w); [|done]. destruct (next_fault w); [done|].
  by destruct (coll w "ctfchallenge").
Qed.

Lemma stored_as_ids (kept : list Ctfchallenge.t) (added : list Doc) :
  Forall2 stored_as kept added ->
  (fun d : Doc => d !! "challenge_id") <$> added
  = (fun s => Some (VStr (Ctfchallenge.challenge_id s))) <$> kept.
Proof.
  induction 1 as [|s d kept added [oid ->] _ IH]; [done|].
  rewrite !fmap_cons, IH. f_equal.
Qed.

Lemma sample_ids_NoDup :
  NoDup ((fun s => Some (VStr (Ctfchallenge.challenge_id s)))
           <$> sample_challenges).
Proof. apply (bool_decide_unpack _). vm_compute. exact I. Qed.

(** C6: the three samples are web-101, crypto-201 and pwn-301 with 100, 200
    and 300 points.  The seed never raises.  On an empty challenge
    collection with a store that answers, it leaves exactly the three
    samples; on a non-empty collection, without a handle or when the count
    fails it changes nothing; whatever inserts fail, what a run adds is a
    sub-list of the samples, and so is what two runs in a row add: no
    sample is ever stored twice. *)
Theorem seed_challenges_idempotent (w : World) :
  (fun s => (Ctfchallenge.challenge_id s, Ctfchallenge.points s))
    <$> sample_challenges
  = [(lit "web-101", 100); (lit "crypto-201", 200); (lit "pwn-301", 300)]
  /\ (seed_challenges w).1 = Ok tt
  /\ (forall h, db w = Some h -> coll w "ctfchallenge" = [] -> answers 4 w ->
        Forall2 stored_as sample_challenges
          (coll (seed_challenges w).2 "ctfchallenge"))
  /\ (coll w "ctfchallenge" ≠ [] -> colls (seed_challenges w).2 = colls w)
  /\ (db w = None \/ is_Some (next_fault w) ->
        colls (seed_challenges w).2 = colls w)
  /\ (exists (kept : list Ctfchallenge.t) (added : list Doc),
        kept `sublist_of` sample_challenges
        /\ Forall2 stored_as kept added
        /\ coll (seed_challenges w).2 "ctfchallenge"
           = coll w "ctfchallenge" ++ added)
  /\ (exists (kept : list Ctfchallenge.t) (added : list Doc),
        kept `sublist_of` sample_challenges
        /\ Forall2 stored_as kept added
        /\ coll (seed_challenges (seed_challenges w).2).2 "ctfchallenge"
           = coll w "ctfchallenge" ++ added
        /\ NoDup ((fun d : Doc => d !! "challenge_id") <$> added)).
Proof.
  split; [by vm_compute|]. split; [apply seed_challenges_ok|].
  destruct (seed_challenges_adds w)
    as (kept & added & Hsub & Hst & Hcoll & Hfull & Hall).
  split; [|split; [|split; [|split]]].
  - intros h Hdb Hempty Ha. rewrite Hcoll, Hempty.
    by rewrite <- (Hall h Hdb Hempty Ha).
  - intros Hne. apply seed_challenges_keeps. auto.
  - intros [?|?]; apply seed_challenges_keeps; auto.
  - by exists kept, added.
  - destruct added as [|d added].
    + rewrite app_nil_r in Hcoll.
      destruct (seed_challenges_adds (seed_challenges w).2)
        as (kept2 & added2 & Hsub2 & Hst2 & Hcoll2 & _).
      exists kept2, added2. rewrite Hcoll2, Hcoll.
      repeat split; [done..|].
      rewrite (stored_as_ids _ _ Hst2).
      eapply sublist_NoDup; [apply sample_ids_NoDup|by apply fmap_sublist].
    + exists kept, (d :: added). repeat split; [done..| |].
      * unfold coll at 1. rewrite seed_challenges_keeps; [exact Hcoll|].
        right; right. rewrite Hcoll. by destruct (coll w "ctfchallenge").
      * rewrite (stored_as_ids _ _ Hst).
        eapply sublist_NoDup; [apply sample_ids_NoDup|by apply fmap_sublist].
Qed.

Lemma seed_challenges_idempotent_witness :
  Forall2 stored_as sample_challenges (coll seeded_world "ctfchallenge")
  /\ colls (seed_challenges seeded_world).2 = colls seeded_world
  /\ colls (seed_challenges offline_world).2 = colls offline_world.
Proof.
  split; [|split].
  - apply (proj1 (proj2 (proj2 (seed_challenges_idempotent fresh_world)))
             {| handle_bool := Truthy |}); [reflexivity..|].
    apply (bool_decide_unpack _). vm_compute. exact I.
  - apply (proj1 (proj2 (proj2 (proj2
             (seed_challenges_idempotent seeded_world))))).
    apply (bool_decide_unpack _). vm_compute. exact I.
  - apply (proj1 (proj2 (proj2 (proj2 (proj2
             (seed_challenges_idempotent offline_world)))))).
    left. reflexivity.
Defined.

(** ** The handlers on the sample worlds *)

Example strip_inner_space : strip (lit "  a b  ") = lit "a b".
Proof. reflexivity. Qed.

Example seeded_points :
  (fun d : Doc => (d !! "challenge_id", d !! "points"))
    <$> coll seeded_world "ctfchallenge"
  = [(Some (VStr (lit "web-101")), Some (VInt 100));
     (Some (VStr (lit "crypto-201")), Some (VInt 200));
     (Some (VStr (lit "pwn-301")), Some (VInt 300))].
Proof. vm_compute. reflexivity. Qed.

Example submit_wrong_flag :
  (submit_flag (payload "pwn-301" "alice" "wrong") seeded_world).1
  = Ok {| SubmitResponse.correct := false; SubmitResponse.points := 0 |}.
Proof. vm_compute. reflexivity. Qed.

Example submit_is_case_sensitive :
  (submit_flag (payload "pwn-301" "alice" "flag{0v3rfl0w}") seeded_world).1
  = Ok {| SubmitResponse.correct := false; SubmitResponse.points := 0 |}.
Proof. vm_compute. reflexivity. Qed.

Example submit_unknown_challenge :
  (submit_flag (payload "no-such-id" "alice" "wrong") seeded_world).1
  = Raise (HTTPException 404 (lit "Challenge not found")).
Proof. vm_compute. reflexivity. Qed.

Example submit_offline :
  (submit_flag (payload "web-101" "alice" "wrong") offline_world).1
  = Raise (HTTPException 503 (lit "Database unavailable")).
Proof. vm_compute. reflexivity. Qed.

Example leaderboard_scored :
  (leaderboard scored_world).1
  = Ok [ {| LeaderboardRow.user := VStr (lit "bob");
            LeaderboardRow.points := VInt 200 |};
         {| LeaderboardRow.user := VStr (lit "alice");
            LeaderboardRow.points := VInt 100 |} ].
Proof. vm_compute. reflexivity. Qed.

Example leaderboard_truth_test_raises :
  (leaderboard
     {| db := Some {| handle_bool := TruthRaises |};
        colls := colls scored_world; next_oid := next_oid scored_world;
        faults := []; environ := ∅ |}).1 = Ok [].
Proof. vm_compute. reflexivity. Qed.

(** * Further properties of the code *)

(** ** The diagnostic endpoint *)

Lemma test_database_run (w : World) :
  exists r : TestResponse.t,
    test_database w
    = (Ok r, match db w with Some _ => after_call w | None => w end)
    /\ TestResponse.backend r = check_mark ++ lit " Running"
    /\ TestResponse.database_url r = env_status w "DATABASE_URL"
    /\ TestResponse.database_name r = env_status w "DATABASE_NAME"
    /\ match db w with
       | None =>
           TestResponse.database r
           = warning_mark ++ lit " Available but not initialized"
           /\ TestResponse.connection_status r = lit "Not Connected"
           /\ TestResponse.collections r = []
       | Some _ =>
           TestResponse.connection_status r = lit "Connected"
           /\ match next_fault w with
              | None =>
                  TestResponse.database r
                  = check_mark ++ lit " Connected & Working"
                  /\ TestResponse.collections r = take 10 (store_names w)
              | Some msg =>
                  TestResponse.database r
                  = warning_mark ++ lit " Connected but Error: "
                      ++ str_prefix 80 msg
                  /\ TestResponse.collections r = []
              end
       end.
Proof.
  unfold test_database, bind, get_world, try_except, ret. cbv beta.
  destruct (db w); [|eexists; split; [reflexivity|]; by repeat split].
  rewrite list_collection_names_run.
  destruct (next_fault w); eexists; (split; [reflexivity|]); by repeat split.
Qed.

(** X1: the diagnostic endpoint always answers and only observes: it
    never raises and leaves the collections and the identifier counter as
    they were, whatever the handle, the store and its failures. *)
Theorem test_database_observes (w : World) :
  (exists r : TestResponse.t, (test_database w).1 = Ok r)
  /\ colls (test_database w).2 = colls w
  /\ next_oid (test_database w).2 = next_oid w.
Proof.
  destruct (test_database_run w) as (r & -> & _).
  split; [by exists r|]. by destruct (db w).
Qed.

(** X2: the [collections] of the diagnostic response are the first names of
    the store's collections, at most 10 of them. *)
Theorem test_database_collections (w : World) :
  exists r : TestResponse.t,
    (test_database w).1 = Ok r
    /\ (length (TestResponse.collections r) <= 10)%nat
    /\ TestResponse.collections r `prefix_of` store_names w.
Proof.
  destruct (test_database_run w) as (r & -> & _ & _ & _ & H).
  exists r. split; [done|].
  assert (Hnil : TestResponse.collections r = [] ->
            (length (TestResponse.collections r) <= 10)%nat
            /\ TestResponse.collections r `prefix_of` store_names w).
  { intros ->. split; [simpl; lia|apply prefix_nil]. }
  destruct (db w); [|apply Hnil, H].
  destruct H as [_ H]. destruct (next_fault w); [apply Hnil, H|].
  destruct H as [_ ->]. split; [rewrite length_take; lia|apply prefix_take].
Qed.

(** X3: when the handle is there and listing the collections raises, the
    diagnostic response says ["Connected"], reports no collection, and its
    [database] text is the warning followed by the first 80 code points of
    the error message: never more than 104 code points. *)
Theorem test_database_reports_error (w : World) (h : Handle) (msg : str) :
  db w = Some h -> next_fault w = Some msg ->
  exists r : TestResponse.t,
    (test_database w).1 = Ok r
    /\ TestResponse.connection_status r = lit "Connected"
    /\ TestResponse.collections r = []
    /\ TestResponse.database r
       = warning_mark ++ lit " Connected but Error: " ++ take 80 msg
    /\ (length (TestResponse.database r) <= 104)%nat.
Proof.
  intros Hdb Hnf. destruct (test_database_run w) as (r & -> & _ & _ & _ & H).
  rewrite Hdb, Hnf in H. destruct H as (Hc & Hd & Hl).
  exists r. repeat split; try done.
  rewrite Hd. unfold str_prefix. rewrite !length_app, length_take.
  change (length warning_mark) with 2%nat.
  change (length (lit " Connected but Error: ")) with 22%nat. lia.
Qed.

Lemma test_database_reports_error_witness :
  exists r : TestResponse.t,
    (test_database (failing [Some long_msg] seeded_world)).1 = Ok r
    /\ TestResponse.connection_status r = lit "Connected"
    /\ TestResponse.collections r = []
    /\ TestResponse.database r
       = warning_mark ++ lit " Connected but Error: " ++ take 80 long_msg
    /\ (length (TestResponse.database r) <= 104)%nat.
Proof.
  apply (test_database_reports_error (failing [Some long_msg] seeded_world)
           {| handle_bool := Truthy |} long_msg); reflexivity.
Defined.

(** X4: the [database] text of the diagnostic response never starts with the
    cross mark: neither the initial ["Not Available"] value nor the
    ["Error: ..."] text of the outer handler is ever returned. *)
Theorem test_database_never_cross (w : World) :
  exists r : TestResponse.t,
    (test_database w).1 = Ok r
    /\ head (TestResponse.database r) ≠ head cross_mark.
Proof.
  destruct (test_database_run w) as (r & -> & _ & _ & _ & H).
  exists r. split; [done|].
  destruct (db w); [|by destruct H as (-> & _)].
  destruct H as [_ H]. destruct (next_fault w); by destruct H as (-> & _).
Qed.

(** X5: the diagnostic response reports a configuration variable as set
    exactly when the environment holds a non-empty value for it; a variable
    set to the empty string is reported as not set. *)
Theorem test_database_env (w : World) :
  exists r : TestResponse.t,
    (test_database w).1 = Ok r
    /\ (TestResponse.database_url r = check_mark ++ lit " Set" <->
        exists c v, environ w !! "DATABASE_URL" = Some (c :: v))
    /\ (TestResponse.database_name r = check_mark ++ lit " Set" <->
        exists c v, environ w !! "DATABASE_NAME" = Some (c :: v))
    /\ (environ w !! "DATABASE_URL" = Some [] ->
        TestResponse.database_url r = cross_mark ++ lit " Not Set").
Proof.
  destruct (test_database_run w) as (r & -> & _ & Hurl & Hname & _).
  exists r. split; [done|]. rewrite Hurl, Hname. unfold env_status.
  repeat split.
  - destruct (environ w !! "DATABASE_URL") as [[|c v]|]; try done. eauto.
  - by intros (c & v & ->).
  - destruct (environ w !! "DATABASE_NAME") as [[|c v]|]; try done. eauto.
  - by intros (c & v & ->).
  - by intros ->.
Qed.

Lemma test_database_env_witness :
  exists r : TestResponse.t,
    (test_database env_world).1 = Ok r
    /\ TestResponse.database_url r = check_mark ++ lit " Set"
    /\ TestResponse.database_name r = cross_mark ++ lit " Not Set".
Proof.
  destruct (test_database_env env_world) as (r & Hr & Hurl & Hname & _).
  exists r. split; [exact Hr|]. split.
  - apply Hurl. eexists _, _. vm_compute. reflexivity.
  - vm_compute in Hr. by injection Hr as <-.
Defined.

(** ** What the handlers touch *)

(** X6: the reading handlers never write: [read_root], [list_challenges] and
    [leaderboard] leave every collection and the identifier counter as they
    were, also when the store fails under them. *)
Theorem read_endpoints_read_only (w : World) :
  (colls (read_root w).2 = colls w /\ next_oid (read_root w).2 = next_oid w)
  /\ (colls (list_challenges w).2 = colls w
      /\ next_oid (list_challenges w).2 = next_oid w)
  /\ (colls (leaderboard w).2 = colls w
      /\ next_oid (leaderboard w).2 = next_oid w).
Proof.
  rewrite list_challenges_run, leaderboard_run. split; [done|]. split.
  - destruct (db w); [|done]. by destruct (next_fault w).
  - destruct (db w) as [h|]; [|done]. destruct (handle_bool h); try done.
    by destruct (next_fault w).
Qed.

Lemma colls_after_write (name name' : string) (d : Doc) (w : World) :
  name' ≠ name -> colls (after_write name d w) !! name' = colls w !! name'.
Proof.
  intros Hne. unfold after_write. destruct (next_fault w); [done|].
  unfold inserted. cbn [colls set_next_oid set_colls after_call set_faults].
  by rewrite lookup_insert_ne.
Qed.

Lemma submit_flag_world (p : SubmitPayload.t) (w : World) :
  (submit_flag p w).2 = w
  \/ (submit_flag p w).2 = after_call w
  \/ exists (r : SubmitResponse.t) (d : Doc),
       (submit_flag p w).1 = Ok r
       /\ (submit_flag p w).2 = after_write "ctfsubmission" d (after_call w).
Proof.
  rewrite submit_flag_run.
  destruct (db w); [|by left]. destruct (next_fault w); [by right; left|].
  destruct (stored_challenge _ _); [|by right; left]. cbv zeta.
  destruct (if str_eq_value _ _ then _ else _); [|by right; left].
  right; right. by eexists _, _.
Qed.

(** X7: [submit_flag] only ever appends to the submissions: every other
    collection (the challenges among them) is left as it was, the stored
    submissions stay in place, at most one document is added behind them,
    and none is added when the call raises. *)
Theorem submit_flag_append_only (p : SubmitPayload.t) (w : World) :
  (forall name : string,
     name ≠ "ctfsubmission" ->
     colls (submit_flag p w).2 !! name = colls w !! name)
  /\ exists added : list Doc,
       coll (submit_flag p w).2 "ctfsubmission"
       = coll w "ctfsubmission" ++ added
       /\ (length added <= 1)%nat
       /\ (forall e, (submit_flag p w).1 = Raise e -> added = []).
Proof.
  destruct (submit_flag_world p w) as [->|[->|(r & d & Hr & ->)]].
  - split; [done|]. exists []. rewrite app_nil_r.
    split; [done|]. split; [simpl; lia|done].
  - split; [done|]. exists []. rewrite app_nil_r.
    split; [done|]. split; [simpl; lia|done].
  - split; [intros name Hne; by rewrite colls_after_write|].
    rewrite coll_after_write, coll_after_call. eexists. split; [done|].
    split; [destruct (next_fault (after_call w)); simpl; lia|].
    intros e He. congruence.
Qed.

Lemma submit_flag_append_only_witness :
  colls (submit_flag (payload "web-101" "alice" "FLAG{BAS1C_SQLI}")
           seeded_world).2 !! "ctfchallenge"
  = colls seeded_world !! "ctfchallenge".
Proof.
  apply (proj1 (submit_flag_append_only
                  (payload "web-101" "alice" "FLAG{BAS1C_SQLI}") seeded_world)).
  discriminate.
Defined.

Lemma seed_loop_other (l : list Ctfchallenge.t) (w : World) (name : string) :
  name ≠ "ctfchallenge" ->
  colls (for_each
           (fun s =>
              try_except
                (create_document "ctfchallenge" (Ctfchallenge.to_doc s) ;;;
                 ret tt)
                (fun _ => ret tt)) l w).2 !! name
  = colls w !! name.
Proof.
  intros Hne. revert w. induction l as [|s l IH]; intros w; [done|].
  cbn [for_each]. unfold bind at 1.
  destruct (db w) as [h|] eqn:Hdb.
  - rewrite (guarded_insert_run _ _ _ h Hdb), IH.
    by apply colls_after_write.
  - assert (Hstep : try_except
                      (create_document "ctfchallenge" (Ctfchallenge.to_doc s) ;;;
                       ret tt) (fun _ => ret tt) w = (Ok tt, w)).
    { unfold try_except, bind. by rewrite create_document_run, Hdb. }
    rewrite Hstep. apply IH.
Qed.

(** X8: the seed only ever touches the challenge collection: every other
    collection, the submissions among them, is left as it was. *)
Theorem seed_challenges_footprint (w : World) (name : string) :
  name ≠ "ctfchallenge" ->
  colls (seed_challenges w).2 !! name = colls w !! name.
Proof.
  intros Hne. rewrite seed_challenges_run.
  destruct (db w); [|done]. destruct (next_fault w); [done|].
  destruct (coll w "ctfchallenge"); [|done].
  cbn [snd]. by rewrite seed_loop_other.
Qed.

Lemma seed_challenges_footprint_witness :
  colls (seed_challenges scored_world).2 !! "ctfsubmission"
  = colls scored_world !! "ctfsubmission".
Proof. apply (seed_challenges_footprint scored_world). discriminate. Defined.

Lemma has_ids_after_write (name : string) (d : Doc) (w : World) :
  has_ids w -> has_ids (after_write name d w).
Proof.
  intros H name' x Hx. destruct (decide (name' = name)) as [->|Hne].
  - rewrite coll_after_write in Hx. apply elem_of_app in Hx as [Hx|Hx].
    + by apply (H name).
    + destruct (next_fault w); [by apply elem_of_nil in Hx|].
      apply list_elem_of_singleton in Hx as ->. apply with_id_has_id.
  - apply (H name'). unfold coll in *. by rewrite colls_after_write in Hx.
Qed.

Lemma seed_loop_has_ids (l : list Ctfchallenge.t) (w : World) :
  has_ids w ->
  has_ids (for_each
             (fun s =>
                try_except
                  (create_document "ctfchallenge" (Ctfchallenge.to_doc s) ;;;
                   ret tt)
                  (fun _ => ret tt)) l w).2.
Proof.
  revert w. induction l as [|s l IH]; intros w H; [done|].
  cbn [for_each]. unfold bind at 1.
  destruct (db w) as [h|] eqn:Hdb.
  - rewrite (guarded_insert_run _ _ _ h Hdb). by apply IH, has_ids_after_write.
  - assert (Hstep : try_except
                      (create_document "ctfchallenge" (Ctfchallenge.to_doc s) ;;;
                       ret tt) (fun _ => ret tt) w = (Ok tt, w)).
    { unfold try_except, bind. by rewrite create_document_run, Hdb. }
    rewrite Hstep. by apply IH.
Qed.

(** X9: the writing handlers keep the store well identified: when every
    stored document carries an [_id], so does every stored document after
    [seed_challenges] and after [submit_flag], whatever fails on the way. *)
Theorem writers_keep_ids (w : World) :
  has_ids w ->
  has_ids (seed_challenges w).2
  /\ forall p : SubmitPayload.t, has_ids (submit_flag p w).2.
Proof.
  intros H. split.
  - rewrite seed_challenges_run.
    destruct (db w); [|done]. destruct (next_fault w); [done|].
    destruct (coll w "ctfchallenge") eqn:E; [|done].
    cbn [snd]. by apply seed_loop_has_ids.
  - intros p. destruct (submit_flag_world p w) as [->|[->|(r & d & _ & ->)]];
      [done..|].
    by apply has_ids_after_write.
Qed.

Lemma writers_keep_ids_witness :
  has_ids (seed_challenges fresh_world).2
  /\ forall p : SubmitPayload.t, has_ids (submit_flag p fresh_world).2.
Proof.
  apply (writers_keep_ids fresh_world).
  intros name d Hd. vm_compute in Hd. by apply elem_of_nil in Hd.
Defined.

Lemma clean_no_oid (d : Doc) : clean d !! "_id" = None.
Proof.
  unfold clean, dict_pop. destruct (delete "flag" d !! "_id") eqn:E; [|done].
  by rewrite lookup_insert_ne, lookup_delete_eq.
Qed.

Lemma clean_other (d : Doc) (k : string) :
  k ≠ "flag" -> k ≠ "_id" -> k ≠ "id" -> clean d !! k = d !! k.
Proof.
  intros Hf Ho Hi. unfold clean, dict_pop.
  destruct (delete "flag" d !! "_id").
  - by rewrite lookup_insert_ne, !lookup_delete_ne.
  - by rewrite lookup_delete_ne.
Qed.

Lemma clean_keeps_id (d : Doc) :
  d !! "_id" = None -> clean d !! "id" = d !! "id".
Proof.
  intros H. unfold clean, dict_pop.
  rewrite lookup_delete_ne, H by done. by rewrite lookup_delete_ne.
Qed.

(** X10: when the store answers, [list_challenges] returns one object per
    stored challenge, in the stored order; an object has no [_id] key, keeps
    every field of its document other than [flag], [_id] and [id], and keeps
    the document's own [id] when the document has no [_id]. *)
Theorem list_challenges_fields (w : World) (h : Handle) :
  db w = Some h -> next_fault w = None ->
  exists docs : list Doc,
    (list_challenges w).1 = Ok docs
    /\ Forall2
         (fun src d : Doc =>
            d !! "_id" = None
            /\ (forall k : string,
                  k ≠ "flag" -> k ≠ "_id" -> k ≠ "id" -> d !! k = src !! k)
            /\ (src !! "_id" = None -> d !! "id" = src !! "id"))
         (coll w "ctfchallenge") docs.
Proof.
  intros Hdb Hnf. rewrite list_challenges_run, Hdb, Hnf.
  eexists. split; [done|].
  apply Forall2_fmap_r, Forall_Forall2_diag, Forall_forall. intros d _.
  split; [apply clean_no_oid|]. split; [apply clean_other|apply clean_keeps_id].
Qed.

Lemma list_challenges_fields_witness :
  exists docs : list Doc,
    (list_challenges seeded_world).1 = Ok docs
    /\ Forall2
         (fun src d : Doc =>
            d !! "_id" = None
            /\ (forall k : string,
                  k ≠ "flag" -> k ≠ "_id" -> k ≠ "id" -> d !! k = src !! k)
            /\ (src !! "_id" = None -> d !! "id" = src !! "id"))
         (coll seeded_world "ctfchallenge") docs.
Proof.
  apply (list_challenges_fields seeded_world {| handle_bool := Truthy |});
    reflexivity.
Defined.

(** ** Stripping *)

Lemma lstrip_app_blank (ws s : str) :
  blank ws = true -> lstrip (ws ++ s) = lstrip s.
Proof.
  induction ws as [|c ws IH]; simpl; [done|].
  destruct (is_space c); [exact IH|done].
Qed.

Lemma lstrip_app_not_blank (s t : str) :
  blank s = false -> lstrip (s ++ t) = lstrip s ++ t.
Proof.
  induction s as [|c s IH]; simpl; [done|].
  destruct (is_space c); [exact IH|done].
Qed.

Lemma lstrip_head (s : str) (c : N) (t : str) :
  lstrip s = c :: t -> is_space c = false.
Proof.
  induction s as [|a s IH]; simpl; [done|].
  destruct (is_space a) eqn:E; [exact IH|]. by intros [= <- _].
Qed.

Lemma lstrip_idemp (s : str) : lstrip (lstrip s) = lstrip s.
Proof.
  destruct (lstrip s) as [|c t] eqn:E; [done|].
  simpl. by rewrite (lstrip_head _ _ _ E).
Qed.

Lemma rstrip_app_blank (s ws : str) :
  blank ws = true -> rstrip (s ++ ws) = rstrip s.
Proof.
  intros H. unfold rstrip. rewrite rev_app_distr, lstrip_app_blank; [done|].
  by rewrite blank_rev.
Qed.

Lemma rstrip_idemp (s : str) : rstrip (rstrip s) = rstrip s.
Proof. unfold rstrip. by rewrite rev_involutive, lstrip_idemp. Qed.

Lemma rstrip_nil (s : str) : blank s = true -> rstrip s = [].
Proof.
  intros H. unfold rstrip.
  by rewrite (proj2 (lstrip_nil (rev s))) by (by rewrite blank_rev).
Qed.

Lemma rstrip_cons (c : N) (s : str) :
  is_space c = false -> rstrip (c :: s) = c :: rstrip s.
Proof.
  intros Hc. unfold rstrip. cbn [rev].
  destruct (blank (rev s)) eqn:E.
  - rewrite lstrip_app_blank by done. simpl. rewrite Hc.
    by rewrite (proj2 (lstrip_nil (rev s)) E).
  - rewrite lstrip_app_not_blank by done. by rewrite rev_app_distr.
Qed.

Lemma strip_pad (ws1 s ws2 : str) :
  blank ws1 = true -> blank ws2 = true -> strip (ws1 ++ s ++ ws2) = strip s.
Proof.
  intros H1 H2. unfold strip. rewrite lstrip_app_blank by done.
  destruct (blank s) eqn:E.
  - rewrite (proj2 (lstrip_nil s) E).
    rewrite (proj2 (lstrip_nil (s ++ ws2))); [done|].
    unfold blank. rewrite forallb_app. by rewrite andb_true_iff.
  - rewrite lstrip_app_not_blank by done. by apply rstrip_app_blank.
Qed.

Lemma strip_head (s : str) (c : N) (t : str) :
  strip s = c :: t -> is_space c = false.
Proof.
  unfold strip. destruct (lstrip s) as [|a u] eqn:E; [done|].
  pose proof (lstrip_head _ _ _ E) as Ha.
  rewrite rstrip_cons by done. by intros [= <- _].
Qed.

Lemma strip_last (s : str) (c : N) :
  last (strip s) = Some c -> is_space c = false.
Proof.
  unfold strip, rstrip.
  destruct (lstrip (rev (lstrip s))) as [|a u] eqn:E; [done|].
  cbn [rev]. rewrite last_snoc. intros [= <-]. by apply (lstrip_head _ _ _ E).
Qed.

Lemma strip_idemp (s : str) : strip (strip s) = strip s.
Proof.
  unfold strip at 1. 
  assert (H : lstrip (strip s) = strip s).
  { destruct (strip s) as [|c t] eqn:E; [done|].
    simpl. by rewrite (strip_head _ _ _ E). }
  rewrite H. unfold strip. apply rstrip_idemp.
Qed.

(** ** Edge cases of the judge *)

(** X11: whitespace around the submitted flag never changes the answer:
    padding the flag of a payload with whitespace on either side gives the
    same response or the same exception. *)
Theorem submit_flag_ignores_padding
    (p : SubmitPayload.t) (w : World) (ws1 ws2 : str) :
  blank ws1 = true -> blank ws2 = true ->
  (submit_flag (with_flag (ws1 ++ SubmitPayload.flag p ++ ws2) p) w).1
  = (submit_flag p w).1.
Proof.
  intros H1 H2. rewrite !submit_flag_run.
  cbn [with_flag SubmitPayload.challenge_id SubmitPayload.flag].
  rewrite strip_pad by done.
  destruct (db w); [|done]. destruct (next_fault w); [done|].
  destruct (stored_challenge _ _); [|done]. cbv zeta.
  by destruct (if str_eq_value _ _ then _ else _).
Qed.

Lemma submit_flag_ignores_padding_witness :
  (submit_flag
     (with_flag (lit "  " ++ lit "FLAG{X0R_K3Y}" ++ [9%N; 10%N; 160%N; 8195%N])
        (payload "crypto-201" "bob" "FLAG{X0R_K3Y}")) seeded_world).1
  = (submit_flag (payload "crypto-201" "bob" "FLAG{X0R_K3Y}") seeded_world).1.
Proof.
  apply (submit_flag_ignores_padding
           (payload "crypto-201" "bob" "FLAG{X0R_K3Y}") seeded_world);
    reflexivity.
Defined.

Lemma judged_wrong (p : SubmitPayload.t) (w : World) (h : Handle) (ch : Doc) :
  db w = Some h -> next_fault w = None ->
  stored_challenge w (SubmitPayload.challenge_id p) = Some ch ->
  str_eq_value (strip (SubmitPayload.flag p)) (dict_get ch "flag") = false ->
  (submit_flag p w).1
  = Ok {| SubmitResponse.correct := false; SubmitResponse.points := 0 |}.
Proof.
  intros Hdb Hnf Hch Hv. rewrite submit_flag_run, Hdb, Hnf, Hch.
  cbv zeta. by rewrite Hv.
Qed.

(** X12: a stored flag that begins or ends with whitespace can never be
    matched: the submitted flag is stripped and the stored one is not, so
    every submission to such a challenge is judged incorrect with 0
    points. *)
Theorem padded_stored_flag_unmatchable
    (p : SubmitPayload.t) (w : World) (h : Handle) (ch : Doc)
    (f : str) (c : N) :
  db w = Some h -> next_fault w = None ->
  stored_challenge w (SubmitPayload.challenge_id p) = Some ch ->
  ch !! "flag" = Some (VStr f) ->
  head f = Some c \/ last f = Some c ->
  is_space c = true ->
  (submit_flag p w).1
  = Ok {| SubmitResponse.correct := false; SubmitResponse.points := 0 |}.
Proof.
  intros Hdb Hnf Hch Hf Hc Hs. apply (judged_wrong p w h ch); try done.
  unfold dict_get. rewrite Hf. cbn [default str_eq_value].
  apply bool_decide_eq_false_2. intros <-. destruct Hc as [Hc|Hc].
  - destruct (strip (SubmitPayload.flag p)) as [|a t] eqn:E; [done|].
    injection Hc as ->. apply strip_head in E. congruence.
  - apply strip_last in Hc. congruence.
Qed.

(** X13: a submission whose stripped flag is not the stored string --
    because it differs, because the stored challenge has no [flag] field or
    because that field is not a string -- is answered
    [{correct: false, points: 0}] whatever the [points] field of the
    challenge holds: the points are not read. *)
Theorem wrong_flag_scores_nothing
    (p : SubmitPayload.t) (w : World) (h : Handle) (ch : Doc) :
  db w = Some h -> next_fault w = None ->
  stored_challenge w (SubmitPayload.challenge_id p) = Some ch ->
  ch !! "flag" ≠ Some (VStr (strip (SubmitPayload.flag p))) ->
  (submit_flag p w).1
  = Ok {| SubmitResponse.correct := false; SubmitResponse.points := 0 |}.
Proof.
  intros Hdb Hnf Hch Hf. apply (judged_wrong p w h ch); try done.
  unfold dict_get. destruct (ch !! "flag") as [[| | |f|]|]; try done.
  cbn [default str_eq_value]. apply bool_decide_eq_false_2. congruence.
Qed.

(** X14: a correct submission to a stored challenge without a [points]
    field is answered [{correct: true, points: 0}]: the missing field
    counts as 0. *)
Theorem missing_points_score_zero
    (p : SubmitPayload.t) (w : World) (h : Handle) (ch : Doc) :
  db w = Some h -> next_fault w = None ->
  stored_challenge w (SubmitPayload.challenge_id p) = Some ch ->
  ch !! "flag" = Some (VStr (strip (SubmitPayload.flag p))) ->
  ch !! "points" = None ->
  (submit_flag p w).1
  = Ok {| SubmitResponse.correct := true; SubmitResponse.points := 0 |}.
Proof.
  intros Hdb Hnf Hch Hf Hp. rewrite submit_flag_run, Hdb, Hnf, Hch.
  unfold dict_get, dict_get_default. rewrite Hf, Hp.
  cbn [default from_option id str_eq_value].
  by rewrite bool_decide_eq_true_2.
Qed.

(** X15: a correct submission to a stored challenge whose [points] is
    [None] raises [TypeError] out of [submit_flag] -- no HTTP status, no
    response -- and stores no submission. *)
Theorem null_points_raise
    (p : SubmitPayload.t) (w : World) (h : Handle) (ch : Doc) :
  db w = Some h -> next_fault w = None ->
  stored_challenge w (SubmitPayload.challenge_id p) = Some ch ->
  ch !! "flag" = Some (VStr (strip (SubmitPayload.flag p))) ->
  ch !! "points" = Some VNone ->
  (submit_flag p w).1 = Raise TypeError
  /\ colls (submit_flag p w).2 = colls w.
Proof.
  intros Hdb Hnf Hch Hf Hp. rewrite submit_flag_run, Hdb, Hnf, Hch.
  unfold dict_get, dict_get_default. rewrite Hf, Hp.
  cbn [default from_option id str_eq_value].
  by rewrite bool_decide_eq_true_2.
Qed.

Lemma padded_stored_flag_unmatchable_witness :
  (submit_flag (payload "padded" "alice" "FLAG{X} ") odd_world).1
  = Ok {| SubmitResponse.correct := false; SubmitResponse.points := 0 |}.
Proof.
  apply (padded_stored_flag_unmatchable _ odd_world {| handle_bool := Truthy |}
           (odd_stored "padded") (lit "FLAG{X} ") 32%N);
    try (vm_compute; reflexivity).
  right. vm_compute. reflexivity.
Defined.

Lemma wrong_flag_scores_nothing_witness :
  (submit_flag (payload "noflag" "alice" "FLAG{X}") odd_world).1
  = Ok {| SubmitResponse.correct := false; SubmitResponse.points := 0 |}.
Proof.
  apply (wrong_flag_scores_nothing _ odd_world {| handle_bool := Truthy |}
           (odd_stored "noflag"));
    try (vm_compute; reflexivity).
  vm_compute. discriminate.
Defined.

Lemma missing_points_score_zero_witness :
  (submit_flag (payload "nopoints" "alice" " FLAG{Y}") odd_world).1
  = Ok {| SubmitResponse.correct := true; SubmitResponse.points := 0 |}.
Proof.
  apply (missing_points_score_zero _ odd_world {| handle_bool := Truthy |}
           (odd_stored "nopoints"));
    vm_compute; reflexivity.
Defined.

Lemma null_points_raise_witness :
  (submit_flag (payload "nullpoints" "alice" "FLAG{Z}") odd_world).1
  = Raise TypeError
  /\ colls (submit_flag (payload "nullpoints" "alice" "FLAG{Z}") odd_world).2
     = colls odd_world.
Proof.
  apply (null_points_raise _ odd_world {| handle_bool := Truthy |}
           (odd_stored "nullpoints"));
    vm_compute; reflexivity.
Defined.

(** ** Usernames *)

Lemma blank_pad (ws1 s ws2 : str) :
  blank ws1 = true -> blank ws2 = true -> blank (ws1 ++ s ++ ws2) = blank s.
Proof.
  unfold blank. intros H1 H2. rewrite !forallb_app, H1, H2.
  by rewrite andb_true_r.
Qed.

(** X16: the username a submission is stored under is never empty and has
    no whitespace at either end. *)
Theorem recorded_username_clean
    (p : SubmitPayload.t) (w w' : World) (r : SubmitResponse.t) :
  submit_flag p w = (Ok r, w') ->
  exists persisted : list Doc,
    coll w' "ctfsubmission" = coll w "ctfsubmission" ++ persisted
    /\ (next_fault (after_call w) = None -> length persisted = 1%nat)
    /\ forall d, d ∈ persisted ->
         exists u : str,
           d !! "username" = Some (VStr u)
           /\ u ≠ [] /\ strip u = u /\ blank u = false.
Proof.
  rewrite submit_flag_run.
  destruct (db w); [|done]. destruct (next_fault w); [done|].
  destruct (stored_challenge _ _); [|done]. cbv zeta.
  destruct (if str_eq_value _ _ then _ else _) as [points|]; [|done].
  intros [= <- <-]. rewrite coll_after_write, coll_after_call.
  eexists. split; [done|]. split; [by intros ->|].
  intros d Hd. destruct (next_fault (after_call w));
    [by apply elem_of_nil in Hd|].
  apply list_elem_of_singleton in Hd as ->.
  eexists. split; [by rewrite with_id_lookup|].
  unfold submission. cbn [Ctfsubmission.username].
  destruct (blank (SubmitPayload.username p)) eqn:E.
  { split; [intros H; vm_compute in H; discriminate|].
    split; vm_compute; reflexivity. }
  assert (Hne : strip (SubmitPayload.username p) ≠ []).
  { intros H%strip_nil. congruence. }
  split; [done|]. split; [apply strip_idemp|].
  destruct (blank (strip _)) eqn:F; [|done].
  apply strip_nil in F. by rewrite strip_idemp in F.
Qed.

Lemma recorded_username_clean_witness :
  exists persisted : list Doc,
    coll (submit_flag (with_username [32%N; 9%N] (payload "web-101" "" "x"))
            seeded_world).2
      "ctfsubmission" = coll seeded_world "ctfsubmission" ++ persisted
    /\ (next_fault (after_call seeded_world) = None ->
        length persisted = 1%nat)
    /\ forall d, d ∈ persisted ->
         exists u : str,
           d !! "username" = Some (VStr u)
           /\ u ≠ [] /\ strip u = u /\ blank u = false.
Proof.
  apply (recorded_username_clean
           (with_username [32%N; 9%N] (payload "web-101" "" "x")) seeded_world _
           {| SubmitResponse.correct := false; SubmitResponse.points := 0 |}).
  vm_compute; reflexivity.
Defined.

(** X17: whitespace around the username never matters: padding the username
    of a payload with whitespace on either side gives the same result and
    leaves the same store, so both spellings share one leaderboard row. *)
Theorem submit_flag_username_padding
    (p : SubmitPayload.t) (w : World) (ws1 ws2 : str) :
  blank ws1 = true -> blank ws2 = true ->
  submit_flag (with_username (ws1 ++ SubmitPayload.username p ++ ws2) p) w
  = submit_flag p w.
Proof.
  intros H1 H2. rewrite !submit_flag_run.
  cbn [with_username SubmitPayload.challenge_id SubmitPayload.flag].
  assert (Hs : forall c n,
            submission
              (with_username (ws1 ++ SubmitPayload.username p ++ ws2) p) c n
            = submission p c n).
  { intros c n. unfold submission.
    cbn [with_username SubmitPayload.challenge_id SubmitPayload.flag
         SubmitPayload.username].
    by rewrite blank_pad, strip_pad. }
  destruct (db w); [|done]. destruct (next_fault w); [done|].
  destruct (stored_challenge _ _); [|done]. cbv zeta.
  destruct (if str_eq_value _ _ then _ else _); [|done]. by rewrite Hs.
Qed.

Lemma submit_flag_username_padding_witness :
  submit_flag
    (with_username (lit " " ++ lit "alice" ++ lit "  ")
       (payload "web-101" "alice" "FLAG{BAS1C_SQLI}")) seeded_world
  = submit_flag (payload "web-101" "alice" "FLAG{BAS1C_SQLI}") seeded_world.
Proof.
  apply (submit_flag_username_padding
           (payload "web-101" "alice" "FLAG{BAS1C_SQLI}") seeded_world);
    reflexivity.
Defined.

(** ** More on the leaderboard *)

Lemma ranking_keys_NoDup (subs : list Doc) : NoDup (ranking subs).*1.
Proof.
  unfold ranking. rewrite sort_desc_perm. apply NoDup_group_sum.
Qed.

Lemma to_row_users (l : list (Value * Z)) :
  LeaderboardRow.user <$> (to_row <$> l) = l.*1.
Proof. by rewrite <- list_fmap_compose. Qed.

(** X18: no user appears twice on the leaderboard. *)
Theorem leaderboard_users_distinct (w : World) :
  exists rows : list LeaderboardRow.t,
    (leaderboard w).1 = Ok rows /\ NoDup (LeaderboardRow.user <$> rows).
Proof.
  rewrite leaderboard_run.
  assert (Hnil : exists rows : list LeaderboardRow.t,
            Ok (A := list LeaderboardRow.t) [] = Ok rows
            /\ NoDup (LeaderboardRow.user <$> rows))
    by (exists []; split; [done|constructor]).
  destruct (db w) as [h|]; [|exact Hnil].
  destruct (handle_bool h); try exact Hnil.
  destruct (next_fault w); [exact Hnil|].
  eexists. split; [done|]. rewrite to_row_users.
  eapply sublist_NoDup; [apply ranking_keys_NoDup|].
  apply fmap_sublist, sublist_take.
Qed.

Lemma ranking_elem (subs : list Doc) (g : Value * Z) :
  g ∈ ranking subs <->
  g.2 = user_total subs g.1
  /\ exists d : Doc, d ∈ subs /\ is_correct d /\ dict_get d "username" = g.1.
Proof.
  rewrite ranking_groups. unfold groups, users. split.
  - intros (u & -> & Hu)%list_elem_of_fmap. split; [done|].
    rewrite elem_of_remove_dups in Hu.
    apply list_elem_of_fmap in Hu as (d & -> & Hd).
    apply list_elem_of_filter in Hd as [? ?]. by exists d.
  - intros [Hg (d & Hd & Hc & Hu)]. apply list_elem_of_fmap. exists g.1.
    split; [destruct g; simpl in *; by subst|].
    rewrite elem_of_remove_dups. apply list_elem_of_fmap. exists d.
    split; [done|]. by apply list_elem_of_filter.
Qed.

(** X19: every row of the leaderboard is earned: its user has at least one
    stored correct submission, and its points are the integer sum of
    [points_awarded] over the correct submissions of that user.  Users with
    incorrect submissions only are never listed. *)
Theorem leaderboard_rows_earned (w : World) :
  exists rows : list LeaderboardRow.t,
    (leaderboard w).1 = Ok rows
    /\ Forall
         (fun r =>
            LeaderboardRow.points r
            = VInt (user_total (coll w "ctfsubmission") (LeaderboardRow.user r))
            /\ exists d : Doc,
                 d ∈ coll w "ctfsubmission" /\ is_correct d
                 /\ dict_get d "username" = LeaderboardRow.user r)
         rows.
Proof.
  rewrite leaderboard_run.
  assert (Hnil : exists rows : list LeaderboardRow.t,
            Ok (A := list LeaderboardRow.t) [] = Ok rows
            /\ Forall
                 (fun r =>
                    LeaderboardRow.points r
                    = VInt (user_total (coll w "ctfsubmission")
                              (LeaderboardRow.user r))
                    /\ exists d : Doc,
                         d ∈ coll w "ctfsubmission" /\ is_correct d
                         /\ dict_get d "username" = LeaderboardRow.user r)
                 rows)
    by (exists []; split; [done|constructor]).
  destruct (db w) as [h|]; [|exact Hnil].
  destruct (handle_bool h); try exact Hnil.
  destruct (next_fault w); [exact Hnil|].
  eexists. split; [done|]. apply Forall_fmap, Forall_forall. intros g Hg.
  apply (fun H => elem_of_sublist _ _ _ H (sublist_take _ _)) in Hg.
  apply ranking_elem in Hg as [Hg Hd]. cbn [compose to_row LeaderboardRow.points
    LeaderboardRow.user]. by rewrite Hg.
Qed.

(** X20: the leaderboard leaves nobody out wrongly: with a handle that
    tests true and a store that answers, every user with a correct
    submission is listed, unless the list is full (20 rows) and every listed
    row has at least as many points as that user. *)
Theorem leaderboard_complete (w : World) (h : Handle) (u : Value) (d : Doc) :
  db w = Some h -> handle_bool h = Truthy -> next_fault w = None ->
  d ∈ coll w "ctfsubmission" -> is_correct d -> dict_get d "username" = u ->
  exists rows : list LeaderboardRow.t,
    (leaderboard w).1 = Ok rows
    /\ (u ∈ LeaderboardRow.user <$> rows
        \/ (length rows = 20%nat
            /\ Forall
                 (fun r => user_total (coll w "ctfsubmission") u <= row_points r)
                 rows)).
Proof.
  intros Hdb Ht Hnf Hd Hc Hu. rewrite leaderboard_run, Hdb, Ht, Hnf.
  eexists. split; [done|].
  set (subs := coll w "ctfsubmission").
  assert (Hg : (u, user_total subs u) ∈ ranking subs).
  { apply ranking_elem. split; [done|]. by exists d. }
  rewrite <- (take_drop 20 (ranking subs)) in Hg.
  apply elem_of_app in Hg as [Hg|Hg].
  - left. rewrite to_row_users. apply list_elem_of_fmap.
    by exists (u, user_total subs u).
  - right. split.
    + rewrite length_fmap, length_take.
      assert (length (drop 20 (ranking subs)) ≠ 0)%nat
        by (intros ?%nil_length_inv; rewrite H in Hg; by apply elem_of_nil in Hg).
      rewrite length_drop in H. lia.
    + apply Forall_fmap, Forall_forall. intros g Hg'.
      pose proof (ranking_sorted subs) as Hs.
      rewrite <- (take_drop 20 (ranking subs)) in Hs.
      apply (StronglySorted_app_1_elem_of _ _ _ _ _ Hs Hg' Hg).
Qed.

Lemma leaderboard_complete_witness :
  exists rows : list LeaderboardRow.t,
    (leaderboard scored_world).1 = Ok rows
    /\ (VStr (lit "alice") ∈ LeaderboardRow.user <$> rows
        \/ (length rows = 20%nat
            /\ Forall
                 (fun r =>
                    user_total (coll scored_world "ctfsubmission")
                      (VStr (lit "alice")) <= row_points r)
                 rows)).
Proof.
  apply (leaderboard_complete scored_world {| handle_bool := Truthy |}
           (VStr (lit "alice"))
           (default ∅ (head (coll scored_world "ctfsubmission"))));
    try (vm_compute; reflexivity).
  apply (bool_decide_unpack _). vm_compute. exact I.
Defined.

Lemma ranking_nil (subs : list Doc) :
  ranking subs = [] <-> filter is_correct subs = [].
Proof.
  split.
  - intros H. destruct (filter is_correct subs) as [|d l] eqn:E; [done|].
    exfalso. assert (Hd : d ∈ filter is_correct subs) by (rewrite E; left).
    apply list_elem_of_filter in Hd as [Hc Hd].
    assert (Hg : (dict_get d "username",
                  user_total subs (dict_get d "username")) ∈ ranking subs).
    { apply ranking_elem. split; [done|]. by exists d. }
    rewrite H in Hg. by apply elem_of_nil in Hg.
  - intros H. destruct (ranking subs) as [|g l] eqn:E; [done|].
    exfalso. assert (Hg : g ∈ ranking subs) by (rewrite E; left).
    apply ranking_elem in Hg as [_ (d & Hd & Hc & _)].
    assert (Hin : d ∈ filter is_correct subs) by by apply list_elem_of_filter.
    rewrite H in Hin. by apply elem_of_nil in Hin.
Qed.

(** X21: with a handle that tests true and a store that answers, the
    leaderboard is empty exactly when no stored submission is correct. *)
Theorem leaderboard_empty_iff (w : World) (h : Handle) :
  db w = Some h -> handle_bool h = Truthy -> next_fault w = None ->
  (leaderboard w).1 = Ok []
  <-> filter is_correct (coll w "ctfsubmission") = [].
Proof.
  intros Hdb Ht Hnf. rewrite leaderboard_run, Hdb, Ht, Hnf.
  rewrite <- ranking_nil. cbn [fst]. split.
  - intros [= H]. apply fmap_nil_inv in H.
    destruct (ranking (coll w "ctfsubmission")); [done|discriminate].
  - by intros ->.
Qed.

Lemma leaderboard_empty_iff_witness :
  (leaderboard seeded_world).1 = Ok [].
Proof.
  apply (leaderboard_empty_iff seeded_world {| handle_bool := Truthy |});
    vm_compute; reflexivity.
Defined.

Lemma leaderboard_total_snoc_wrong (subs : list Doc) (s : Doc) (u : Value) :
  s !! "correct" ≠ Some (VBool true) ->
  leaderboard_total (subs ++ [s]) u = leaderboard_total subs u.
Proof.
  intros Hc. rewrite !leaderboard_total_user_total. unfold user_total.
  rewrite filter_app. rewrite (filter_cons_False _ s []) by done.
  by rewrite filter_nil, app_nil_r.
Qed.

(** X22: what a submission does to the leaderboard.  After an answered
    [submit_flag] whose write went through, the total of the user the
    submission is recorded under has grown by exactly the points of the
    response (0 for an incorrect flag) and every other total is as before;
    when the write failed, every total is as before. *)
Theorem submit_flag_scores
    (p : SubmitPayload.t) (w w' : World) (r : SubmitResponse.t) (u : Value) :
  submit_flag p w = (Ok r, w') ->
  let recorded :=
    VStr (if blank (SubmitPayload.username p) then lit "anonymous"
          else strip (SubmitPayload.username p)) in
  leaderboard_total (coll w' "ctfsubmission") u
  = leaderboard_total (coll w "ctfsubmission") u
    + match next_fault (after_call w) with
      | None => if decide (recorded = u) then SubmitResponse.points r else 0
      | Some _ => 0
      end.
Proof.
  rewrite submit_flag_run.
  destruct (db w); [|done]. destruct (next_fault w); [done|].
  destruct (stored_challenge _ _) as [ch|]; [|done]. cbv zeta.
  destruct (str_eq_value _ _) eqn:Hv.
  - destruct (py_int _) as [points|]; [|done].
    intros [= <- <-]. rewrite coll_after_write, coll_after_call.
    cbn [SubmitResponse.points].
    destruct (next_fault (after_call w)); [rewrite app_nil_r; lia|].
    rewrite leaderboard_total_snoc by (by rewrite with_id_lookup).
    unfold dict_get. by rewrite !with_id_lookup.
  - intros [= <- <-]. rewrite coll_after_write, coll_after_call.
    cbn [SubmitResponse.points].
    destruct (next_fault (after_call w)); [rewrite app_nil_r; lia|].
    rewrite leaderboard_total_snoc_wrong by (by rewrite with_id_lookup).
    case_decide; lia.
Qed.

Lemma submit_flag_scores_witness :
  leaderboard_total
    (coll (submit_flag (payload "pwn-301" "bob" "FLAG{0V3RFL0W}")
             scored_world).2 "ctfsubmission") (VStr (lit "bob"))
  = 500.
Proof.
  rewrite (submit_flag_scores (payload "pwn-301" "bob" "FLAG{0V3RFL0W}")
             scored_world _
             {| SubmitResponse.correct := true; SubmitResponse.points := 300 |}
             (VStr (lit "bob")));
    vm_compute; reflexivity.
Defined.

Lemma sum_where_perm (key_field sum_field : string) (k : Value)
    (l1 l2 : list Doc) :
  l1 ≡ₚ l2 ->
  sum_where key_field sum_field k l1 = sum_where key_field sum_field k l2.
Proof.
  induction 1 as [|d l1 l2 _ IH|d1 d2 l|l1 l2 l3 _ IH1 _ IH2]; [done|..].
  - by rewrite !sum_where_cons, IH.
  - rewrite !sum_where_cons. lia.
  - by rewrite IH1.
Qed.

(** X23: the totals do not depend on the order in which the submissions
    are stored. *)
Theorem leaderboard_total_order (subs subs' : list Doc) (u : Value) :
  subs ≡ₚ subs' -> leaderboard_total subs u = leaderboard_total subs' u.
Proof.
  intros H. rewrite !leaderboard_total_user_total. unfold user_total.
  apply sum_where_perm. by rewrite H.
Qed.

Lemma leaderboard_total_order_witness :
  leaderboard_total (rev (coll scored_world "ctfsubmission")) (VStr (lit "bob"))
  = leaderboard_total (coll scored_world "ctfsubmission") (VStr (lit "bob")).
Proof.
  apply leaderboard_total_order. symmetry. apply Permutation_rev.
Defined.

(** ** Challenges written through the schema *)

Lemma lit_inj (s t : string) : lit s = lit t -> s = t.
Proof.
  revert t. induction s as [|a s IH]; intros [|b t]; simpl; try done.
  intros [= Hab Hst]. f_equal; [|by apply IH].
  by rewrite <- (ascii_N_embedding a), <- (ascii_N_embedding b), Hab.
Qed.

(** X24: the difficulty table of [main.py] and the literal type of
    [schemas.py] agree: [DIFF_POINTS] has an entry exactly for the three
    allowed difficulties, and a challenge built with an allowed difficulty
    and the points of its entry always passes the schema. *)
Theorem difficulty_tables_agree (k : string) :
  (is_Some (DIFF_POINTS !! k) <-> lit k ∈ DIFFICULTY)
  /\ forall (n : Z) (challenge_id title category description flag : str)
            (hint : option str),
       DIFF_POINTS !! k = Some n ->
       exists c : Ctfchallenge.t,
         Ctfchallenge.make challenge_id title category (lit k) description
           hint flag n = Ok c
         /\ Ctfchallenge.points c = n /\ 0 <= n.
Proof.
  assert (Hk : forall n, DIFF_POINTS !! k = Some n ->
            (k = "Easy" /\ n = 100) \/ (k = "Medium" /\ n = 200)
            \/ (k = "Hard" /\ n = 300)).
  { intros n. unfold DIFF_POINTS. rewrite !lookup_insert.
    repeat case_decide; subst; rewrite ?lookup_empty; intros [=]; auto. }
  split; [split|].
  - intros [n Hn]. destruct (Hk n Hn) as [[-> _]|[[-> _]|[-> _]]];
      apply (bool_decide_unpack _); by vm_compute.
  - unfold DIFFICULTY. rewrite !elem_of_cons, elem_of_nil.
    intros [->%lit_inj|[->%lit_inj|[->%lit_inj|[]]]]; by eexists.
  - intros n cid title cat descr flag hint Hn.
    destruct (Hk n Hn) as [[-> ->]|[[-> ->]|[-> ->]]]; by eexists.
Qed.

Lemma difficulty_tables_agree_witness :
  exists c : Ctfchallenge.t,
    Ctfchallenge.make (lit "misc-1") (lit "Warmup") (lit "Misc")
      (lit "Medium") (lit "Read the rules.") None (lit "FLAG{RULES}") 200
    = Ok c
    /\ Ctfchallenge.points c = 200 /\ 0 <= 200.
Proof.
  apply (proj2 (difficulty_tables_agree "Medium") 200). reflexivity.
Defined.

Lemma first_match_snoc (name field : string) (v : Value) (w : World) (d : Doc) :
  first_match name field v (inserted name d w) =
    match first_match name field v w with
    | Some d0 => Some d0
    | None => if decide (with_id w d !! field = Some v)
              then Some (with_id w d) else None
    end.
Proof.
  unfold first_match. rewrite coll_inserted, decide_True by done.
  rewrite filter_app.
  destruct (filter _ (coll w name)) as [|d0 l]; [|done].
  rewrite filter_cons, filter_nil. by case_decide.
Qed.

Lemma stored_after_create (w : World) (h : Handle) (d : Doc) (cid : str) :
  db w = Some h -> next_fault w = None ->
  stored_challenge (create_document "ctfchallenge" d w).2 cid =
    match stored_challenge w cid with
    | Some d0 => Some d0
    | None => if decide (with_id (after_call w) d !! "challenge_id"
                         = Some (VStr cid))
              then Some (with_id (after_call w) d) else None
    end.
Proof.
  intros Hdb Hnf. rewrite create_document_run, Hdb, Hnf.
  unfold stored_challenge. cbn [snd]. by rewrite first_match_snoc.
Qed.

(** X25: insert and solve.  A challenge whose flag has no whitespace at its
    ends, written with [create_document] under an identifier that no stored
    challenge has, is solved by submitting its flag, with any whitespace
    around it: the answer is [{correct: true, points: <its points>}]. *)
Theorem created_challenge_solvable
    (w : World) (h : Handle) (c : Ctfchallenge.t) (ws1 ws2 username : str) :
  db w = Some h -> faults w = [] ->
  stored_challenge w (Ctfchallenge.challenge_id c) = None ->
  strip (Ctfchallenge.flag c) = Ctfchallenge.flag c ->
  blank ws1 = true -> blank ws2 = true ->
  (submit_flag
     {| SubmitPayload.challenge_id := Ctfchallenge.challenge_id c;
        SubmitPayload.username := username;
        SubmitPayload.flag := ws1 ++ Ctfchallenge.flag c ++ ws2 |}
     (create_document "ctfchallenge" (Ctfchallenge.to_doc c) w).2).1
  = Ok {| SubmitResponse.correct := true;
          SubmitResponse.points := Ctfchallenge.points c |}.
Proof.
  intros Hdb Hf Hnone Hflag H1 H2.
  assert (Hnf : next_fault w = None) by (unfold next_fault; by rewrite Hf).
  pose proof (stored_after_create w h (Ctfchallenge.to_doc c)
                (Ctfchallenge.challenge_id c) Hdb Hnf) as Hst.
  rewrite Hnone in Hst.
  rewrite decide_True in Hst by (by rewrite with_id_lookup).
  rewrite submit_flag_run. cbn [SubmitPayload.challenge_id SubmitPayload.flag].
  rewrite Hst. rewrite create_document_run, Hdb, Hnf. cbn [snd].
  rewrite db_inserted, db_after_call, Hdb.
  assert (Hnf' : next_fault (inserted "ctfchallenge" (Ctfchallenge.to_doc c)
                               (after_call w)) = None)
    by (unfold next_fault; cbn; by rewrite Hf).
  rewrite Hnf'. cbv zeta. unfold dict_get, dict_get_default.
  rewrite !with_id_lookup by done. rewrite strip_pad, Hflag by done.
  change (Ctfchallenge.to_doc c !! "flag")
    with (Some (VStr (Ctfchallenge.flag c))).
  change (Ctfchallenge.to_doc c !! "points")
    with (Some (VInt (Ctfchallenge.points c))).
  cbn [default from_option id str_eq_value py_int].
  by rewrite bool_decide_eq_true_2.
Qed.

Lemma created_challenge_solvable_witness :
  (submit_flag
     {| SubmitPayload.challenge_id := lit "misc-1";
        SubmitPayload.username := lit "alice";
        SubmitPayload.flag := lit " " ++ lit "FLAG{RULES}" ++ lit "  " |}
     (create_document "ctfchallenge" (Ctfchallenge.to_doc misc_challenge)
        seeded_world).2).1
  = Ok {| SubmitResponse.correct := true; SubmitResponse.points := 200 |}.
Proof.
  apply (created_challenge_solvable seeded_world {| handle_bool := Truthy |}
           misc_challenge (lit " ") (lit "  ") (lit "alice"));
    vm_compute; reflexivity.
Defined.

(** ** The truth test of the handle *)

Lemma db_submit_flag (p : SubmitPayload.t) (w : World) :
  db (submit_flag p w).2 = db w.
Proof.
  destruct (submit_flag_world p w) as [->|[->|(r & d & _ & ->)]];
    [done..|].
  by rewrite db_after_write.
Qed.

Lemma leaderboard_refused (w : World) (h : Handle) :
  db w = Some h -> handle_bool h = TruthRaises -> (leaderboard w).1 = Ok [].
Proof. intros Hdb Ht. by rewrite leaderboard_run, Hdb, Ht. Qed.

(** C3: [leaderboard] tests its handle with [if db] where every other
    handler compares with [None].  Through a handle whose truth test raises
    the exception is swallowed by the handler's own [except], and the
    leaderboard is empty whatever the store holds: at [pymongo_world] the
    correct submissions make the groups alice: 100 and bob: 200, the ranking
    of the claim is bob, alice, and the handler returns no row. *)
Theorem leaderboard_truth_test_swallowed (w : World) :
  (leaderboard (with_handle pymongo_handle w)).1 = Ok []
  /\ groups (coll pymongo_world "ctfsubmission")
     = [(VStr (lit "alice"), 100); (VStr (lit "bob"), 200)]
  /\ to_row <$> take 20 (sort_desc snd (groups (coll pymongo_world "ctfsubmission")))
     = [ {| LeaderboardRow.user := VStr (lit "bob");
            LeaderboardRow.points := VInt 200 |};
         {| LeaderboardRow.user := VStr (lit "alice");
            LeaderboardRow.points := VInt 100 |} ]
  /\ (leaderboard pymongo_world).1 = Ok [].
Proof.
  split; [by apply (leaderboard_refused _ pymongo_handle)|].
  split; [by vm_compute|]. split; by vm_compute.
Qed.

(** C7: through a handle whose truth test raises, a new correct submission
    never shows: the leaderboard is empty before and after every
    [submit_flag].  At [pymongo_world], alice's correct submission is
    answered with 100 points and stored, the sum of her correct submissions
    grows from 100 to 200, and the leaderboard still returns no row. *)
Theorem leaderboard_misses_new_points (w : World) (p : SubmitPayload.t) :
  (leaderboard (with_handle pymongo_handle w)).1 = Ok []
  /\ (leaderboard (submit_flag p (with_handle pymongo_handle w)).2).1 = Ok []
  /\ (submit_flag alice_payload pymongo_world).1
     = Ok {| SubmitResponse.correct := true; SubmitResponse.points := 100 |}
  /\ user_total (coll pymongo_world "ctfsubmission") (VStr (lit "alice")) = 100
  /\ user_total (coll (submit_flag alice_payload pymongo_world).2 "ctfsubmission")
       (VStr (lit "alice")) = 200
  /\ (leaderboard (submit_flag alice_payload pymongo_world).2).1 = Ok [].
Proof.
  split; [by apply (leaderboard_refused _ pymongo_handle)|].
  split; [apply (leaderboard_refused _ pymongo_handle);
          [by rewrite db_submit_flag|done]|].
  repeat split; by vm_compute.
Qed.

Example int_of_grouped_digits : int_of_str (lit " +1_000 ") = Ok 1000.
Proof. reflexivity. Qed.

Example int_of_bad_grouping :
  int_of_str (lit "1__0") = Raise ValueError
  /\ int_of_str (lit "_1") = Raise ValueError
  /\ int_of_str (lit "1_") = Raise ValueError
  /\ int_of_str (lit "-") = Raise ValueError
  /\ int_of_str (lit "") = Raise ValueError.
Proof. by repeat split. Qed.
